(** * A shallow embedding of [openscap_daemon/oscap_helpers.py]

    The Python module is modelled function by function.  Python values are
    modelled as follows:
    - [str] is [string] (ASCII characters), [int] is [Z];
    - raised exceptions are the [Raise] branch of [result];
    - a Python [dict] is an association list updated in place, so that key
      order and the absence of duplicate keys are visible;
    - the file system touched by [evaluate] is explicit state;
    - the external collaborators (ElementTree, the spawned process, the
      [EvaluationSpec] object) are parameters of the functions using them. *)

From Stdlib Require Import ZArith String Ascii List Bool Lia.
From Stdlib Require Import Decimal DecimalString DecimalZ.
Import ListNotations.

Local Open Scope string_scope.
Local Open Scope Z_scope.

(** ** Python exceptions and the error monad *)

Inductive exn : Type :=
| RuntimeError (msg : string)
| ValueError        (** bad [int()] literal, wrong tuple unpacking *)
| KeyError          (** missing dict key or XML attribute *)
| IOError           (** [IOError] / [OSError]: missing file, no permission *)
| ParseError        (** [xml.etree.ElementTree.ParseError] *)
| FileExistsError.  (** [tempfile.mkdtemp] out of candidate names *)

Inductive result (A : Type) : Type :=
| Ok (a : A)
| Raise (e : exn).
Arguments Ok {A} a.
Arguments Raise {A} e.

Definition bind {A B : Type} (m : result A) (k : A -> result B) : result B :=
  match m with
  | Ok a => k a
  | Raise e => Raise e
  end.

Notation "x <- m ;; k" := (bind m (fun x => k))
  (at level 61, m at next level, right associativity).

(** ** Python string helpers *)

(** [s.startswith(p)] *)
Definition startswith (s p : string) : bool := String.prefix p s.

(** [s[n:]] *)
Fixpoint str_drop (n : nat) (s : string) : string :=
  match n, s with
  | O, _ => s
  | S _, EmptyString => EmptyString
  | S n', String _ s' => str_drop n' s'
  end.

(** [c in s] for a one-character [c] *)
Fixpoint str_contains (c : ascii) (s : string) : bool :=
  match s with
  | EmptyString => false
  | String d s' => Ascii.eqb d c || str_contains c s'
  end.

(** [s.split(sep)] for a one-character separator: every occurrence splits. *)
Fixpoint py_split (sep : ascii) (s : string) : list string :=
  match s with
  | EmptyString => [EmptyString]
  | String c s' =>
      if Ascii.eqb c sep then EmptyString :: py_split sep s'
      else match py_split sep s' with
           | x :: xs => String c x :: xs
           | [] => [String c EmptyString]
           end
  end.

(** Python's [str.isspace] on the ASCII range: [\t \n \v \f \r],
    [\x1c]..[\x1f] and the space. *)
Definition py_isspace (c : ascii) : bool :=
  let n := nat_of_ascii c in
  ((9 <=? n)%nat && (n <=? 13)%nat) || ((28 <=? n)%nat && (n <=? 32)%nat).

Definition is_digit (c : ascii) : bool :=
  let n := nat_of_ascii c in (48 <=? n)%nat && (n <=? 57)%nat.

Fixpoint lstrip_ws (l : list ascii) : list ascii :=
  match l with
  | [] => []
  | c :: r => if py_isspace c then lstrip_ws r else l
  end.

Definition strip_ws (l : list ascii) : list ascii :=
  List.rev (lstrip_ws (List.rev (lstrip_ws l))).

(** The digit part of a base-10 [int()] literal: digits, with single
    underscores allowed between two digits ([1_000]). *)
Fixpoint valid_digit_groups (prev_digit : bool) (l : list ascii) : bool :=
  match l with
  | [] => prev_digit
  | c :: r =>
      if is_digit c then valid_digit_groups true r
      else if Ascii.eqb c "_" && prev_digit then valid_digit_groups false r
      else false
  end.

(** [int(s)] on a [str]: surrounding white space is ignored, one optional
    sign, then the digit groups.  [None] is the [ValueError] case. *)
Definition py_int_of_list (l : list ascii) : option Z :=
  let core := strip_ws l in
  let '(neg, body) :=
    match core with
    | c :: r =>
        if Ascii.eqb c "-" then (true, r)
        else if Ascii.eqb c "+" then (false, r)
        else (false, core)
    | [] => (false, core)
    end in
  if valid_digit_groups false body then
    match NilZero.uint_of_string
            (string_of_list_ascii (filter (fun c => negb (Ascii.eqb c "_")) body))
    with
    | Some u => Some (if neg then Z.of_int (Neg u) else Z.of_int (Pos u))
    | None => None
    end
  else None.

Definition py_int (s : string) : option Z := py_int_of_list (list_ascii_of_string s).

(** [int(s)] as a possibly raising call *)
Definition int_ (s : string) : result Z :=
  match py_int s with
  | Some z => Ok z
  | None => Raise ValueError
  end.

(** [str(z)] and ["%i" % z] on an [int] *)
Definition str_int (z : Z) : string := NilZero.string_of_int (Z.to_int z).

(** ** [class EvaluationMode] *)

Module EvaluationMode.

Definition UNKNOWN : Z := -1.
Definition SOURCE_DATASTREAM : Z := 1.
Definition OVAL : Z := 2.
Definition CVE_SCAN : Z := 3.
Definition STANDARD_SCAN : Z := 4.

Definition to_string (value : Z) : string :=
  if value =? SOURCE_DATASTREAM then "sds"
  else if value =? OVAL then "oval"
  else if value =? CVE_SCAN then "cve_scan"
  else if value =? STANDARD_SCAN then "standard_scan"
  else "unknown".

Definition from_string (value : string) : Z :=
  if String.eqb value "sds" then SOURCE_DATASTREAM
  else if String.eqb value "oval" then OVAL
  else if String.eqb value "cve_scan" then CVE_SCAN
  else if String.eqb value "standard_scan" then STANDARD_SCAN
  else UNKNOWN.

End EvaluationMode.

(** ** [get_status_from_exit_code] *)

Definition get_status_from_exit_code (exit_code : Z) : string :=
  let status := "Unknown (exit_code = " ++ str_int exit_code ++ ")" in
  if exit_code =? 0 then "Compliant"
  else if exit_code =? 1 then "Evaluation Error"
  else if exit_code =? 2 then "Non-Compliant"
  else status.

(** ** Python dicts

    A [dict] is an association list in insertion order.  [d[k] = v] updates
    the value in place when [k] is already a key, and appends otherwise. *)

Definition dict (K V : Type) := list (K * V).

Fixpoint dict_get {K V : Type} (eqk : K -> K -> bool) (d : dict K V) (k : K)
  : option V :=
  match d with
  | [] => None
  | (k', v) :: r => if eqk k' k then Some v else dict_get eqk r k
  end.

Fixpoint dict_set {K V : Type} (eqk : K -> K -> bool) (d : dict K V) (k : K) (v : V)
  : dict K V :=
  match d with
  | [] => [(k, v)]
  | (k', v') :: r => if eqk k' k then (k', v) :: r else (k', v') :: dict_set eqk r k v
  end.

(** Number of entries of [d] with key [k]. *)
Definition dict_count {K V : Type} (eqk : K -> K -> bool) (d : dict K V) (k : K) : nat :=
  length (filter (fun e => eqk (fst e) k) d).

(** ** Configuration and evaluation spec *)

Record Config := mkConfig {
  oscap_path : string;
  oscap_ssh_path : string;
  oscap_docker_path : string;
  oscap_vm_path : string;
  oscap_chroot_path : string;
  work_in_progress_dir : string
}.

(** Modelled from the spec: the [EvaluationSpec] object, whose class is not
    among the sources.  The module reads it through [spec.mode],
    [spec.target], [spec.profile_id], [spec.input_.file_path],
    [spec.is_valid()] and [spec.get_oscap_arguments(config)]; the record
    holds the value of each. *)
Record EvaluationSpec := mkSpec {
  mode : Z;
  target : string;
  profile_id : string;
  input_file_path : string;
  is_valid : bool;
  get_oscap_arguments : Config -> list string
}.

(** ** [split_ssh_target] *)

Definition split_ssh_target (target : string) : result (string * Z) :=
  if negb (startswith target "ssh://") && negb (startswith target "ssh+sudo://")
  then Raise (RuntimeError "Can't split ssh target.")
  else
    let without_prefix :=
      if startswith target "ssh+sudo://" then str_drop 11 target
      else str_drop 6 target in
    if str_contains ":" without_prefix then
      match py_split ":" without_prefix with
      | [host; port_str] => port <- int_ port_str ;; Ok (host, port)
      | _ => Raise ValueError
      end
    else Ok (without_prefix, 22).

(** ** [get_evaluation_args] *)

Definition tool_not_found (tool target : string) : exn :=
  RuntimeError ("Target '" ++ target ++ "' requires the " ++ tool
                ++ " tool which hasn't been found").

Definition get_evaluation_args (spec : EvaluationSpec) (config : Config)
  : result (list string) :=
  let t := target spec in
  ret <-
    (if String.eqb t "localhost" then
       if String.eqb (oscap_path config) "" then Raise (tool_not_found "oscap" t)
       else Ok [oscap_path config]
     else if startswith t "ssh://" then
       if String.eqb (oscap_ssh_path config) "" then Raise (tool_not_found "oscap-ssh" t)
       else hp <- split_ssh_target t ;;
            let '(host, port) := hp in
            Ok [oscap_ssh_path config; host; str_int port]
     else if startswith t "ssh+sudo://" then
       if String.eqb (oscap_ssh_path config) "" then Raise (tool_not_found "oscap-ssh" t)
       else hp <- split_ssh_target t ;;
            let '(host, port) := hp in
            Ok [oscap_ssh_path config; "--sudo"; host; str_int port]
     else if startswith t "docker-image://" then
       if String.eqb (oscap_ssh_path config) "" then Raise (tool_not_found "oscap-docker" t)
       else let image_name := str_drop (String.length "docker-image://") t in
            Ok [oscap_docker_path config; "image"; image_name]
     else if startswith t "docker-container://" then
       if String.eqb (oscap_ssh_path config) "" then Raise (tool_not_found "oscap-docker" t)
       else let container_name := str_drop (String.length "docker-container://") t in
            Ok [oscap_docker_path config; "container"; container_name]
     else if startswith t "vm-domain://" then
       if String.eqb (oscap_vm_path config) "" then Raise (tool_not_found "oscap-vm" t)
       else let domain_name := str_drop (String.length "vm-domain://") t in
            Ok [oscap_vm_path config; "domain"; domain_name]
     else if startswith t "vm-image://" then
       if String.eqb (oscap_vm_path config) "" then Raise (tool_not_found "oscap-vm" t)
       else let storage_name := str_drop (String.length "vm-image://") t in
            Ok [oscap_vm_path config; "image"; storage_name]
     else if startswith t "chroot://" then
       if String.eqb (oscap_chroot_path config) "" then Raise (tool_not_found "oscap-chroot" t)
       else let path := str_drop (String.length "chroot://") t in
            Ok [oscap_chroot_path config; path]
     else Raise (RuntimeError ("Unrecognized target '" ++ t ++ "' in evaluation spec.")))
  ;;
  Ok (ret ++ get_oscap_arguments spec config)%list.

(** ** [_fix_type_to_template] *)

Definition fix_templates : dict string string :=
  [("bash", "urn:xccdf:fix:script:sh");
   ("ansible", "urn:xccdf:fix:script:ansible");
   ("puppet", "urn:xccdf:fix:script:puppet")].

(** [fix_templates[fix_type]] raises [KeyError] on an unknown key. *)
Definition _fix_type_to_template (fix_type : string) : result string :=
  match dict_get String.eqb fix_templates fix_type with
  | Some template => Ok template
  | None => Raise KeyError
  end.

(** ** The functions reading XML documents

    ElementTree and the file system are used through the calls below. *)

Section XmlFunctions.

Variable xml_tree : Type.

(** [ElementTree.parse(path)]: [IOError] when the file cannot be read,
    [ParseError] when it is not well-formed XML. *)
Variable et_parse : string -> result xml_tree.

(** [tree.findall(".//{ns}checklists/{ns}component-ref[1]")] when the
    checklist id is [None], and
    [tree.findall(".//{ns}checklists/{ns}component-ref/[@id='<id>']")]
    otherwise: for each element found, its [xlink:href] attribute, [None]
    when the element has none. *)
Variable findall_component_refs : xml_tree -> option string -> string -> list (option string).

(** [tree.findall(".//{ns}component/[@id='<c>']//{pns}Profile")] with
    [findall_profiles tree ns c pns]: for each Profile found, [elem.get("id")]
    and [et_helpers.get_element_text(elem, "{pns}title", "")]. *)
Variable findall_profiles : xml_tree -> string -> string -> string -> list (option string * string).

(** [root.find(".//xccdf:TestResult", ns)] (XCCDF 1.2 namespace): [None]
    when there is no such element, otherwise its [id] attribute ([None] when
    absent). *)
Variable find_test_result : xml_tree -> option (option string).

(** [os.path.exists(path)] *)
Variable path_exists : string -> bool.

(** [subprocess_check_output(args).decode("utf-8")]: the output of the
    command, or the exception raised when it cannot be run or fails. *)
Variable check_output : list string -> result string.

(** Profile ids are [elem.get("id")], so [None] is a possible key. *)
Definition profile_map := dict (option string) string.

Definition key_eqb (a b : option string) : bool :=
  match a, b with
  | Some x, Some y => String.eqb x y
  | None, None => true
  | _, _ => false
  end.

Definition ns_source_11 := "http://scap.nist.gov/schema/scap/source/1.1".
Definition ns_xccdf_11 := "http://checklists.nist.gov/xccdf/1.1".
Definition ns_source_12 := "http://scap.nist.gov/schema/scap/source/1.2".
Definition ns_xccdf_12 := "http://checklists.nist.gov/xccdf/1.2".

(** The inner [for elem in ...: dest[id_] = title] loop. *)
Definition add_profiles (profiles : list (option string * string)) (dest : profile_map)
  : profile_map :=
  fold_left (fun d p => dict_set key_eqb d (fst p) (snd p)) profiles dest.

(** The outer [for x in xccdfs] loop: [x.attrib[xlink_href]] raises
    [KeyError] when the attribute is missing. *)
Fixpoint scrape_refs (tree : xml_tree) (xccdf_ns profile_ns : string)
    (refs : list (option string)) (dest : profile_map) : result profile_map :=
  match refs with
  | [] => Ok dest
  | None :: _ => Raise KeyError
  | Some href :: xs =>
      let c := str_drop 1 href in
      scrape_refs tree xccdf_ns profile_ns xs
        (add_profiles (findall_profiles tree xccdf_ns c profile_ns) dest)
  end.

(** The local function [scrape_profiles]; it mutates [dest], here it
    returns the updated map. *)
Definition scrape_profiles (tree : xml_tree) (xccdf_id : option string)
    (xccdf_ns profile_ns : string) (dest : profile_map) : result profile_map :=
  scrape_refs tree xccdf_ns profile_ns
    (findall_component_refs tree xccdf_id xccdf_ns) dest.

Definition get_profile_choices_for_input (input_file : string)
    (tailoring_file : option string) (xccdf_id : option string)
  : result profile_map :=
  let ret : profile_map := [] in
  match et_parse input_file with
  | Raise IOError => Ok ret
  | Raise ParseError => Ok ret
  | Raise e => Raise e
  | Ok input_tree =>
      ret <- scrape_profiles input_tree xccdf_id ns_source_11 ns_xccdf_11 ret ;;
      ret <- scrape_profiles input_tree xccdf_id ns_source_12 ns_xccdf_12 ret ;;
      ret <-
        (match tailoring_file with
         | Some tf =>
             if String.eqb tf "" then Ok ret   (* [if tailoring_file:] *)
             else tailoring_tree <- et_parse tf ;;
                  ret <- scrape_profiles tailoring_tree None ns_source_11 ns_xccdf_11 ret ;;
                  scrape_profiles tailoring_tree None ns_source_12 ns_xccdf_12 ret
         | None => Ok ret
         end) ;;
      Ok (dict_set key_eqb ret (Some "") "(default)")
  end.

(** ** [_get_result_id] and [generate_fix_for_result] *)

Definition _get_result_id (results_path : string) : result string :=
  tree <- et_parse results_path ;;
  match find_test_result tree with
  | None => Raise (RuntimeError ("Results XML '" ++ results_path
                                 ++ "' doesn't contain any results."))
  | Some None => Raise KeyError
  | Some (Some id) => Ok id
  end.

Definition generate_fix_for_result (config : Config) (results_path fix_type : string)
    (xccdf_id : option string) : result string :=
  if negb (path_exists results_path) then
    Raise (RuntimeError ("Can't generate fix for scan result. Expected "
                         ++ "results XML at '" ++ results_path
                         ++ "' but the file doesn't exist."))
  else
    result_id <- _get_result_id results_path ;;
    template <- _fix_type_to_template fix_type ;;
    let args := [oscap_path config; "xccdf"; "generate"; "fix";
                 "--result-id"; result_id; "--template"; template] in
    let args := match xccdf_id with
                | Some x => (args ++ ["--xccdf-id"; x])%list
                | None => args
                end in
    let args := (args ++ [results_path])%list in
    fix_text <- check_output args ;;
    Ok fix_text.

End XmlFunctions.

(** ** The file system and [evaluate] *)

(** Directories by path, each with its files (name and content), and the
    state of the name generator of [tempfile]. *)
Record fs := mkFS {
  fs_dirs : list (string * dict string string);
  fs_seed : nat
}.

(** State and exceptions: [evaluate] creates files before it can raise. *)
Definition ST (A : Type) := fs -> result A * fs.

Definition st_ret {A : Type} (a : A) : ST A := fun s => (Ok a, s).
Definition st_raise {A : Type} (e : exn) : ST A := fun s => (Raise e, s).
Definition st_lift {A : Type} (r : result A) : ST A := fun s => (r, s).
Definition st_bind {A B : Type} (m : ST A) (k : A -> ST B) : ST B :=
  fun s => match m s with
           | (Ok a, s') => k a s'
           | (Raise e, s') => (Raise e, s')
           end.

Notation "x <-- m ;;; k" := (st_bind m (fun x => k))
  (at level 61, m at next level, right associativity).

Definition dir_exists (d : string) (s : fs) : bool :=
  existsb (fun e => String.eqb (fst e) d) (fs_dirs s).

(** Content of the file [name] in directory [d], if any. *)
Definition file_content (d name : string) (s : fs) : option string :=
  match dict_get String.eqb (fs_dirs s) d with
  | Some files => dict_get String.eqb files name
  | None => None
  end.

(** Sets the content of [d/name] (no effect when [d] does not exist). *)
Definition fs_put (d name content : string) (s : fs) : fs :=
  mkFS (map (fun e => if String.eqb (fst e) d
                      then (fst e, dict_set String.eqb (snd e) name content)
                      else e) (fs_dirs s))
       (fs_seed s).

(** [io.open(os.path.join(d, name), "w", ...)] and writing [content]. *)
Definition write_file (d name content : string) : ST unit :=
  fun s => if dir_exists d s then (Ok tt, fs_put d name content s)
           else (Raise IOError, s).

Definition TMP_MAX : nat := 10000.

(** The retry loop of [tempfile.mkdtemp]: a candidate name from the
    generator, [os.mkdir] of it, a new candidate while it exists. *)
Fixpoint mkdtemp_loop (n : nat) (dir : string) : ST string :=
  fun s =>
    match n with
    | O => (Raise FileExistsError, s)
    | S n' =>
        let name := dir ++ "/tmp" ++ str_int (Z.of_nat (fs_seed s)) in
        let s1 := mkFS (fs_dirs s) (S (fs_seed s)) in
        if dir_exists name s1 then mkdtemp_loop n' dir s1
        else (Ok name, mkFS ((name, []) :: fs_dirs s1) (fs_seed s1))
    end.

(** [tempfile.mkdtemp(prefix="", suffix="", dir=dir)]: [os.mkdir] fails
    with an [OSError] when [dir] does not exist. *)
Definition mkdtemp (dir : string) : ST string :=
  fun s => if dir_exists dir s then mkdtemp_loop TMP_MAX dir s
           else (Raise IOError, s).

(** What [subprocess.call] observes: the child exits with a code after
    writing to its standard output and error, or it cannot be started
    (an exception). *)
Inductive call_outcome : Type :=
| Exited (code : Z) (out err : string)
| LaunchFailed.

Section Evaluate.

(** The process started by [subprocess.call(args, cwd=...)]. *)
Variable spawn : list string -> string -> call_outcome.

(** The [try: exit_code = subprocess.call(...) except: ...] block, with
    [exit_code = 1] set before it; the child writes into the redirected
    [stdout] and [stderr] files. *)
Definition call_redirected (args : list string) (working_directory : string) : ST Z :=
  match spawn args working_directory with
  | Exited code out err =>
      fun s => (Ok code, fs_put working_directory "stderr" err
                           (fs_put working_directory "stdout" out s))
  | LaunchFailed => st_ret 1
  end.

(** [evaluate]; logging is left out. *)
Definition evaluate (spec : EvaluationSpec) (config : Config) : ST string :=
  if negb (is_valid spec) then
    st_raise (RuntimeError "Can't evaluate an invalid EvaluationSpec.")
  else
    working_directory <-- mkdtemp (work_in_progress_dir config) ;;;
    _ <-- write_file working_directory "stdout" "" ;;;
    _ <-- write_file working_directory "stderr" "" ;;;
    args <-- st_lift (get_evaluation_args spec config) ;;;
    exit_code <-- call_redirected args working_directory ;;;
    _ <-- write_file working_directory "exit_code" (str_int exit_code) ;;;
    st_ret working_directory.

End Evaluate.

(** ** [os.path.join] *)

(** [s.endswith(p)] *)
Definition endswith (s p : string) : bool :=
  (String.length p <=? String.length s)%nat &&
  String.eqb (substring (String.length s - String.length p) (String.length p) s) p.

(** [posixpath.join(a, *p)]: an absolute component restarts the path, a
    separator is added unless the path so far is empty or ends with one. *)
Definition os_path_join (a : string) (p : list string) : string :=
  fold_left (fun path b =>
               if startswith b "/" then b
               else if String.eqb path "" || endswith path "/" then path ++ b
               else path ++ "/" ++ b) p a.

(** ** [get_generate_report_args_for_results] *)


(** ** [schedule_repeat_after] *)

Definition schedule_repeat_after (schedule_str : string) : result Z :=
  if String.eqb schedule_str "@daily" then Ok (1 * 24)
  else if String.eqb schedule_str "@weekly" then Ok (7 * 24)
  else if String.eqb schedule_str "@monthly" then Ok (30 * 24)
  else int_ schedule_str.

(** ** [generate_report_for_result] *)

Section ReportFunctions.

Variable path_exists : string -> bool.
Variable check_output : list string -> result string.


End ReportFunctions.
Example py_int_ex1 : py_int " +1_000 " = Some 1000. Proof. reflexivity. Qed.
Example py_int_ex2 : py_int "1__0" = None. Proof. reflexivity. Qed.
Example py_int_ex3 : py_int "-42" = Some (-42). Proof. reflexivity. Qed.
Example py_int_ex4 : py_int "" = None. Proof. reflexivity. Qed.
Example str_int_ex : str_int (-77) = "-77" /\ str_int 0 = "0". Proof. split; reflexivity. Qed.
Example split_ex : py_split ":" "a:b:c" = ["a"; "b"; "c"]. Proof. reflexivity. Qed.

(** ** Definitions stated from the spec's words *)

(** The host/port parsing as the spec words it: split once at the first
    colon into host and port; no colon means port 22. *)
Fixpoint split_at_first_colon (s : string) : option (string * string) :=
  match s with
  | EmptyString => None
  | String c s' =>
      if Ascii.eqb c ":" then Some (EmptyString, s')
      else match split_at_first_colon s' with
           | Some (h, p) => Some (String c h, p)
           | None => None
           end
  end.

Definition ssh_host_port_spec (rest : string) : result (string * Z) :=
  match split_at_first_colon rest with
  | None => Ok (rest, 22)
  | Some (host, port_str) =>
      match py_int port_str with
      | Some port => Ok (host, port)
      | None => Raise ValueError
      end
  end.

(** The fix-template table as the spec words it. *)
Definition spec_fix_template (fix_type : string) : option string :=
  if String.eqb fix_type "bash" then Some "urn:xccdf:fix:script:sh"
  else if String.eqb fix_type "ansible" then Some "urn:xccdf:fix:script:ansible"
  else if String.eqb fix_type "puppet" then Some "urn:xccdf:fix:script:puppet"
  else None.

(** No key occurs twice. *)
Definition keys_unique {K V : Type} (eqk : K -> K -> bool) (d : dict K V) : Prop :=
  forall k, (dict_count eqk d k <= 1)%nat.

(** ** Concrete configurations and specs *)

Definition cfg_docker_only : Config :=
  mkConfig "/usr/bin/oscap" "" "/usr/bin/oscap-docker" "" "" "/var/lib/oscapd/wip".

Definition cfg_ssh_only : Config :=
  mkConfig "/usr/bin/oscap" "/usr/bin/oscap-ssh" "" "" "" "/var/lib/oscapd/wip".

Definition spec_for (t : string) : EvaluationSpec :=
  mkSpec EvaluationMode.SOURCE_DATASTREAM t "xccdf_profile_standard" "/usr/share/ssg-ds.xml" true
         (fun _ => ["xccdf"; "eval"]).

(** ** Concrete inputs used by the witnesses and counterexamples *)

Definition cfg_no_oscap : Config :=
  mkConfig "" "/usr/bin/oscap-ssh" "" "" "" "/var/lib/oscapd/wip".

(** A file system holding the work-in-progress directory only. *)
Definition fs0 : fs := mkFS [("/var/lib/oscapd/wip", [])] 0.

(** A configuration whose work-in-progress directory is a relative path,
    and a file system where that directory exists. *)
Definition cfg_relative : Config :=
  mkConfig "/usr/bin/oscap" "/usr/bin/oscap-ssh" "" "" "" "wip".

Definition fs_relative : fs := mkFS [("wip", [])] 0.

Definition fs0_after_mkdtemp : fs :=
  mkFS [("/var/lib/oscapd/wip/tmp0", []); ("/var/lib/oscapd/wip", [])] 1.

(** A scan that finds the machine non-compliant, and a binary that cannot
    be started. *)
Definition spawn_noncompliant : list string -> string -> call_outcome :=
  fun _ _ => Exited 2 "Rule ... fail" "".

Definition spawn_missing : list string -> string -> call_outcome :=
  fun _ _ => LaunchFailed.

(** A datastream at [/usr/share/ssg-ds.xml] whose 1.2 checklist
    [scap_xccdf] holds the profiles [p1] and [p2]; no other file is
    readable. *)
Definition ds_parse (path : string) : result unit :=
  if String.eqb path "/usr/share/ssg-ds.xml" then Ok tt else Raise IOError.

Definition ds_refs (_ : unit) (_ : option string) (ns : string) : list (option string) :=
  if String.eqb ns ns_source_12 then [Some "#scap_xccdf"] else [].

Definition ds_profiles (_ : unit) (ns c _ : string) : list (option string * string) :=
  if String.eqb ns ns_source_12 && String.eqb c "scap_xccdf"
  then [(Some "p1", "Title A"); (Some "p2", "Title B")] else [].

(** A results document holding one TestResult. *)
Definition res_parse (_ : string) : result unit := Ok tt.
Definition res_test_result (_ : unit) : option (option string) :=
  Some (Some "xccdf_org.open-scap_testresult_default").
Definition res_missing (_ : string) : bool := false.
Definition res_present (_ : string) : bool := true.
Definition fix_output (_ : list string) : result string := Ok "#!/bin/bash".

Definition results_xml : string := "/var/lib/oscapd/results/1/results.xml".



(** A file system holding the result of an earlier run. *)
Definition fs_with_result : fs :=
  mkFS [("/var/lib/oscapd/results/1", [("exit_code", "0"); ("stdout", "Rule ... pass")]);
        ("/var/lib/oscapd/wip", [])] 0.

(** * Properties *)

Import EvaluationMode.

(** ** Characters *)

Ltac all_chars c :=
  destruct c as [[] [] [] [] [] [] [] []].

Lemma digit_facts (c : ascii) :
  is_digit c = true ->
  py_isspace c = false /\ Ascii.eqb c "-" = false /\ Ascii.eqb c "+" = false
  /\ Ascii.eqb c "_" = false.
Proof. all_chars c; vm_compute; intro H; first [discriminate | repeat split]. Qed.

Lemma minus_not_space : py_isspace "-" = false.
Proof. reflexivity. Qed.

(** ** [lstrip_ws] and [strip_ws] *)

Lemma lstrip_ws_id (l : list ascii) :
  Forall (fun c => py_isspace c = false) l -> lstrip_ws l = l.
Proof. destruct l as [|c r]; [reflexivity|]. intros H; inversion H; subst; simpl; now rewrite H2. Qed.

Lemma strip_ws_id (l : list ascii) :
  Forall (fun c => py_isspace c = false) l -> strip_ws l = l.
Proof.
  intros H. unfold strip_ws. rewrite (lstrip_ws_id l H).
  rewrite lstrip_ws_id; [apply rev_involutive|]. now apply Forall_rev.
Qed.

Lemma in_lstrip_ws (c : ascii) (l : list ascii) :
  In c l -> In c (lstrip_ws l) \/ py_isspace c = true.
Proof.
  induction l as [|d r IH]; simpl; [tauto|].
  intros [-> | Hin].
  - destruct (py_isspace c) eqn:E; [now right | left; now left].
  - destruct (py_isspace d); [now apply IH | left; now right].
Qed.

Lemma in_strip_ws (c : ascii) (l : list ascii) :
  In c l -> In c (strip_ws l) \/ py_isspace c = true.
Proof.
  intros H. unfold strip_ws.
  destruct (in_lstrip_ws c l H) as [H1|H1]; [|now right].
  apply in_rev in H1.
  destruct (in_lstrip_ws c _ H1) as [H2|H2]; [|now right].
  left. now apply in_rev in H2.
Qed.

(** ** Digit groups *)

Lemma valid_digit_groups_digits (b : bool) (l : list ascii) :
  Forall (fun c => is_digit c = true) l -> l <> [] -> valid_digit_groups b l = true.
Proof.
  revert b. induction l as [|c r IH]; intros b H Hne; [congruence|].
  inversion H; subst. simpl. rewrite H2.
  destruct r; [reflexivity|]. apply IH; [assumption | discriminate].
Qed.

Lemma valid_digit_groups_chars (b : bool) (l : list ascii) :
  valid_digit_groups b l = true ->
  Forall (fun c => is_digit c = true \/ c = "_"%char) l.
Proof.
  revert b. induction l as [|c r IH]; intros b H; [constructor|].
  simpl in H. destruct (is_digit c) eqn:Ed.
  - constructor; [now left | eapply IH; eassumption].
  - destruct (Ascii.eqb c "_") eqn:Eu; simpl in H; [|discriminate].
    apply Ascii.eqb_eq in Eu. destruct b; [|discriminate].
    constructor; [now right | eapply IH; eassumption].
Qed.

Lemma filter_no_underscore (l : list ascii) :
  Forall (fun c => is_digit c = true) l ->
  filter (fun c => negb (Ascii.eqb c "_")) l = l.
Proof.
  induction l as [|c r IH]; intros H; [reflexivity|].
  inversion H; subst. simpl.
  destruct (digit_facts c H2) as (_ & _ & _ & ->). simpl. now rewrite IH.
Qed.

(** ** Decimal strings of [str_int] *)

Lemma empty_string_of_uint_digits (u : uint) :
  Forall (fun c => is_digit c = true)
         (list_ascii_of_string (NilEmpty.string_of_uint u)).
Proof. induction u; simpl; constructor; auto. Qed.

Lemma string_of_uint_digits (u : uint) :
  Forall (fun c => is_digit c = true) (list_ascii_of_string (NilZero.string_of_uint u))
  /\ list_ascii_of_string (NilZero.string_of_uint u) <> [].
Proof.
  destruct u; simpl; split; try discriminate;
    repeat constructor; apply empty_string_of_uint_digits.
Qed.

Lemma digits_not_space (l : list ascii) :
  Forall (fun c => is_digit c = true) l -> Forall (fun c => py_isspace c = false) l.
Proof. apply Forall_impl. intros c H. now apply digit_facts. Qed.

Lemma uint_of_string_of_uint (u : uint) :
  exists u', NilZero.uint_of_string (NilZero.string_of_uint u) = Some u'
             /\ Z.of_uint u' = Z.of_uint u.
Proof.
  destruct u; try (eexists; split; [reflexivity | reflexivity]);
    (eexists; split; [apply NilZero.usu; discriminate | reflexivity]).
Qed.

Lemma py_int_of_uint_string (neg : bool) (u : uint) :
  py_int_of_list ((if neg then ["-"%char] else [])
                   ++ list_ascii_of_string (NilZero.string_of_uint u))%list
  = Some (if neg then Z.of_int (Neg u) else Z.of_int (Pos u)).
Proof.
  destruct (string_of_uint_digits u) as [Hd Hne].
  set (l := list_ascii_of_string (NilZero.string_of_uint u)) in *.
  destruct (uint_of_string_of_uint u) as (u' & Hu' & Hval).
  assert (Hval' : Z.of_int (Pos u') = Z.of_int (Pos u)) by exact Hval.
  unfold py_int_of_list.
  rewrite strip_ws_id.
  2:{ destruct neg; simpl; [constructor; [reflexivity|]|]; now apply digits_not_space. }
  destruct l as [|c r] eqn:El; [congruence|].
  inversion Hd as [|? ? Hc Hr]; subst.
  destruct (digit_facts c Hc) as (_ & Hm & Hp & _).
  destruct neg;
    cbn -[filter valid_digit_groups NilZero.uint_of_string string_of_list_ascii];
    rewrite ?Hm, ?Hp;
    cbn -[filter valid_digit_groups NilZero.uint_of_string string_of_list_ascii];
    rewrite (valid_digit_groups_digits false (c :: r) Hd ltac:(discriminate));
    rewrite (filter_no_underscore (c :: r) Hd);
    rewrite <- El; unfold l; rewrite string_of_list_ascii_of_string, Hu';
    [simpl; f_equal; now rewrite Hval | exact (f_equal Some Hval')].
Qed.

(** [int(str(z)) == z] *)
Lemma py_int_str_int (z : Z) : py_int (str_int z) = Some z.
Proof.
  unfold py_int, str_int. rewrite <- (DecimalZ.of_to z) at 2.
  destruct (Z.to_int z) as [u|u].
  - exact (py_int_of_uint_string false u).
  - exact (py_int_of_uint_string true u).
Qed.

(** ** Claim C6: the mode strings *)

(** C6: each of the four known modes reads back as itself through
    [from_string (to_string m)]; every string other than ["sds"], ["oval"],
    ["cve_scan"] and ["standard_scan"] reads as [UNKNOWN]; ["unknown"], the
    display string of [UNKNOWN], is one of those unrecognised strings. *)
Theorem evaluation_mode_string_roundtrip :
  (forall m, In m [SOURCE_DATASTREAM; OVAL; CVE_SCAN; STANDARD_SCAN] ->
             from_string (to_string m) = m) /\
  (forall s, ~ In s ["sds"; "oval"; "cve_scan"; "standard_scan"] ->
             from_string s = UNKNOWN) /\
  to_string UNKNOWN = "unknown" /\ from_string "unknown" = UNKNOWN.
Proof.
  split; [|split; [|split; reflexivity]].
  - intros m Hm. simpl in Hm.
    destruct Hm as [<- | [<- | [<- | [<- | []]]]]; reflexivity.
  - intros s Hs. unfold from_string.
    destruct (String.eqb_spec s "sds"); [subst; simpl in Hs; tauto|].
    destruct (String.eqb_spec s "oval"); [subst; simpl in Hs; tauto|].
    destruct (String.eqb_spec s "cve_scan"); [subst; simpl in Hs; tauto|].
    destruct (String.eqb_spec s "standard_scan"); [subst; simpl in Hs; tauto|].
    reflexivity.
Qed.

Lemma evaluation_mode_string_roundtrip_witness :
  from_string (to_string CVE_SCAN) = CVE_SCAN /\ from_string "SDS" = UNKNOWN.
Proof.
  split.
  - apply (proj1 evaluation_mode_string_roundtrip CVE_SCAN). simpl; tauto.
  - apply (proj1 (proj2 evaluation_mode_string_roundtrip) "SDS").
    simpl. intros [H | [H | [H | [H | []]]]]; discriminate.
Defined.

(** ** Claim C7: the status of an exit code *)

(** C7: [get_status_from_exit_code] maps 0 to ["Compliant"], 2 to
    ["Non-Compliant"], 1 to ["Evaluation Error"], and any other code [n] to
    ["Unknown (exit_code = <n>)"], where [<n>] is the decimal text of [n]
    (it reads back as [n]). *)
Theorem status_from_exit_code :
  get_status_from_exit_code 0 = "Compliant" /\
  get_status_from_exit_code 2 = "Non-Compliant" /\
  get_status_from_exit_code 1 = "Evaluation Error" /\
  (forall n, n <> 0 -> n <> 1 -> n <> 2 ->
     exists code, get_status_from_exit_code n = "Unknown (exit_code = " ++ code ++ ")"
                  /\ py_int code = Some n).
Proof.
  split; [reflexivity|]. split; [reflexivity|]. split; [reflexivity|].
  intros n H0 H1 H2. exists (str_int n). split; [|apply py_int_str_int].
  unfold get_status_from_exit_code.
  rewrite (proj2 (Z.eqb_neq n 0) H0), (proj2 (Z.eqb_neq n 1) H1),
          (proj2 (Z.eqb_neq n 2) H2).
  reflexivity.
Qed.

Lemma status_from_exit_code_witness :
  exists code, get_status_from_exit_code 77 = "Unknown (exit_code = " ++ code ++ ")"
               /\ py_int code = Some 77.
Proof.
  apply (proj2 (proj2 (proj2 status_from_exit_code)) 77); discriminate.
Defined.

(** ** Claim C1: docker targets *)

(** C1 (code at the failing inputs): with the docker tool configured but
    the ssh tool path empty, a [docker-image://] or [docker-container://]
    target is refused as if the docker tool were missing; with the docker
    tool path empty but the ssh tool configured, the empty docker path is
    selected as the binary.  The test is on [oscap_ssh_path]. *)
Theorem docker_targets_test_ssh_path :
  get_evaluation_args (spec_for "docker-image://fedora") cfg_docker_only
    = Raise (tool_not_found "oscap-docker" "docker-image://fedora") /\
  get_evaluation_args (spec_for "docker-container://web") cfg_docker_only
    = Raise (tool_not_found "oscap-docker" "docker-container://web") /\
  get_evaluation_args (spec_for "docker-image://fedora") cfg_ssh_only
    = Ok [""; "image"; "fedora"; "xccdf"; "eval"].
Proof. repeat split; reflexivity. Qed.

(** ** Claim C5: ssh targets *)

Lemma py_split_no_sep (c : ascii) (s : string) :
  str_contains c s = false -> py_split c s = [s].
Proof.
  induction s as [|d s IH]; simpl; [reflexivity|].
  intros H. apply orb_false_iff in H as [H1 H2]. rewrite H1, IH by exact H2. reflexivity.
Qed.

Lemma py_split_sep_length (c : ascii) (s : string) :
  str_contains c s = true -> (2 <= length (py_split c s))%nat.
Proof.
  induction s as [|d s IH]; simpl; [discriminate|].
  intros H. destruct (Ascii.eqb d c) eqn:E.
  - simpl. destruct (py_split c s) eqn:Es; [|simpl; lia].
    destruct s; simpl in Es; [discriminate|].
    destruct (Ascii.eqb a c); [discriminate|]. destruct (py_split c s); discriminate.
  - simpl in H. specialize (IH H). destruct (py_split c s); simpl in *; lia.
Qed.

Lemma split_at_first_colon_none (s : string) :
  split_at_first_colon s = None <-> str_contains ":" s = false.
Proof.
  induction s as [|d s IH]; simpl; [tauto|].
  destruct (Ascii.eqb d ":"); simpl; [split; discriminate|].
  destruct (split_at_first_colon s) as [[h p]|]; rewrite <- IH; split; congruence.
Qed.

Lemma split_at_first_colon_some (s h p : string) :
  split_at_first_colon s = Some (h, p) -> py_split ":" s = h :: py_split ":" p.
Proof.
  revert h. induction s as [|d s IH]; intros h; simpl; [discriminate|].
  destruct (Ascii.eqb d ":").
  - intros [= <- <-]. reflexivity.
  - destruct (split_at_first_colon s) as [[h' p']|] eqn:E; [|discriminate].
    intros [= <- <-]. rewrite (IH h' eq_refl). reflexivity.
Qed.

Lemma in_list_ascii_contains (c : ascii) (s : string) :
  str_contains c s = true -> In c (list_ascii_of_string s).
Proof.
  induction s as [|d s IH]; simpl; [discriminate|].
  intros H. apply orb_true_iff in H as [H|H]; [left; now apply Ascii.eqb_eq | right; auto].
Qed.

(** A string containing a colon is not an [int()] literal. *)
Lemma py_int_colon (s : string) :
  str_contains ":" s = true -> py_int s = None.
Proof.
  intros H. apply in_list_ascii_contains in H. unfold py_int, py_int_of_list.
  destruct (in_strip_ws _ _ H) as [Hin | Hsp]; [|discriminate].
  destruct (strip_ws (list_ascii_of_string s)) as [|c r] eqn:E; [destruct Hin|].
  assert (Hbody : forall b body, In ":"%char body -> valid_digit_groups b body = false).
  { intros b body Hb. destruct (valid_digit_groups b body) eqn:V; [|reflexivity].
    apply valid_digit_groups_chars in V. rewrite Forall_forall in V.
    destruct (V _ Hb) as [D | D]; discriminate. }
  destruct (Ascii.eqb c "-") eqn:Em; [| destruct (Ascii.eqb c "+") eqn:Ep];
    cbn -[valid_digit_groups]; rewrite Hbody; try reflexivity;
    first [exact Hin | destruct Hin as [-> | Hin]; [discriminate | exact Hin]].
Qed.

(** The colon test and [split(":")] of [split_ssh_target] split at the first
    colon: when the part after it holds another colon, both the unpacking
    into two names and [int()] raise [ValueError]. *)
Lemma split_colon_logic (s : string) :
  (if str_contains ":" s then
     match py_split ":" s with
     | [host; port_str] => port <- int_ port_str ;; Ok (host, port)
     | _ => Raise ValueError
     end
   else Ok (s, 22)) = ssh_host_port_spec s.
Proof.
  unfold ssh_host_port_spec.
  destruct (split_at_first_colon s) as [[h p]|] eqn:E.
  - destruct (str_contains ":" s) eqn:C;
      [| apply split_at_first_colon_none in C; congruence].
    rewrite (split_at_first_colon_some _ _ _ E).
    destruct (str_contains ":" p) eqn:Cp.
    + rewrite (py_int_colon p Cp).
      pose proof (py_split_sep_length _ _ Cp) as L.
      destruct (py_split ":" p) as [|x [|y l]]; simpl in L; try lia. reflexivity.
    + rewrite (py_split_no_sep _ _ Cp). unfold int_. simpl.
      destruct (py_int p); reflexivity.
  - apply split_at_first_colon_none in E. rewrite E. reflexivity.
Qed.

(** C5: after the [ssh://] or [ssh+sudo://] prefix, [split_ssh_target]
    splits the rest once at its first colon into the host and a port read by
    [int()] (a port that is not an integer literal raises [ValueError]); with
    no colon the port is 22.  For an [ssh+sudo://] target with the ssh tool
    configured, [get_evaluation_args] starts with the ssh tool, ["--sudo"],
    the host and [str(port)]. *)
Theorem ssh_target_host_port (rest : string) :
  split_ssh_target ("ssh://" ++ rest) = ssh_host_port_spec rest /\
  split_ssh_target ("ssh+sudo://" ++ rest) = ssh_host_port_spec rest /\
  (forall spec config,
     target spec = "ssh+sudo://" ++ rest -> oscap_ssh_path config <> "" ->
     get_evaluation_args spec config =
       (hp <- ssh_host_port_spec rest ;;
        Ok (oscap_ssh_path config :: "--sudo" :: fst hp :: str_int (snd hp)
            :: get_oscap_arguments spec config))).
Proof.
  assert (Hpre : String.prefix "" rest = true) by (destruct rest; reflexivity).
  assert (Hsudo : split_ssh_target ("ssh+sudo://" ++ rest) = ssh_host_port_spec rest).
  { unfold split_ssh_target, startswith. simpl. rewrite Hpre. apply split_colon_logic. }
  split; [|split; [exact Hsudo|]].
  - unfold split_ssh_target, startswith. simpl. rewrite Hpre. apply split_colon_logic.
  - intros spec config Ht Hp. unfold get_evaluation_args. rewrite Ht.
    apply String.eqb_neq in Hp.
    assert (E1 : String.eqb ("ssh+sudo://" ++ rest) "localhost" = false) by reflexivity.
    assert (E2 : startswith ("ssh+sudo://" ++ rest) "ssh://" = false) by reflexivity.
    assert (E3 : startswith ("ssh+sudo://" ++ rest) "ssh+sudo://" = true)
      by (unfold startswith; simpl; exact Hpre).
    cbv zeta. rewrite E1, E2, E3, Hp, Hsudo.
    destruct (ssh_host_port_spec rest) as [[h p]|e]; reflexivity.
Qed.

Lemma ssh_target_host_port_witness :
  get_evaluation_args (spec_for "ssh+sudo://scanme:2222") cfg_ssh_only
  = Ok ["/usr/bin/oscap-ssh"; "--sudo"; "scanme"; "2222"; "xccdf"; "eval"].
Proof.
  rewrite (proj2 (proj2 (ssh_target_host_port "scanme:2222"))
             (spec_for "ssh+sudo://scanme:2222") cfg_ssh_only); [|reflexivity|discriminate].
  vm_compute. reflexivity.
Defined.

(** ** Dict facts *)

Section DictFacts.

Context {K V : Type}.
Variable eqk : K -> K -> bool.
Hypothesis eqk_spec : forall a b, eqk a b = true <-> a = b.

Lemma eqk_refl (k : K) : eqk k k = true.
Proof. now apply eqk_spec. Qed.

Lemma eqk_false (a b : K) : a <> b -> eqk a b = false.
Proof. intros H. destruct (eqk a b) eqn:E; [apply eqk_spec in E; contradiction | reflexivity]. Qed.

Lemma dict_set_count_same (d : dict K V) (k : K) (v : V) :
  (dict_count eqk d k <= 1)%nat -> dict_count eqk (dict_set eqk d k v) k = 1%nat.
Proof.
  unfold dict_count. induction d as [|[k' v'] r IH]; simpl; [now rewrite eqk_refl|].
  destruct (eqk k' k) eqn:E; simpl.
  - rewrite E. simpl. intros H. f_equal. lia.
  - rewrite E. exact IH.
Qed.

Lemma dict_set_count_other (d : dict K V) (k j : K) (v : V) :
  k <> j -> dict_count eqk (dict_set eqk d k v) j = dict_count eqk d j.
Proof.
  intros Hkj. unfold dict_count. induction d as [|[k' v'] r IH]; simpl.
  - now rewrite (eqk_false k j Hkj).
  - destruct (eqk k' k) eqn:E; simpl; [destruct (eqk k' j); reflexivity|].
    destruct (eqk k' j); simpl; now rewrite IH.
Qed.

Lemma dict_set_keys_unique (d : dict K V) (k : K) (v : V) :
  keys_unique eqk d -> keys_unique eqk (dict_set eqk d k v).
Proof.
  intros H j. destruct (eqk k j) eqn:E.
  - apply eqk_spec in E. subst. rewrite dict_set_count_same by apply H. lia.
  - rewrite dict_set_count_other; [apply H|]. intros ->. now rewrite eqk_refl in E.
Qed.

Lemma dict_get_set_same (d : dict K V) (k : K) (v : V) :
  dict_get eqk (dict_set eqk d k v) k = Some v.
Proof.
  induction d as [|[k' v'] r IH]; simpl; [now rewrite eqk_refl|].
  destruct (eqk k' k) eqn:E; simpl; rewrite E; [reflexivity | exact IH].
Qed.

Lemma dict_get_set_other (d : dict K V) (k j : K) (v : V) :
  k <> j -> dict_get eqk (dict_set eqk d k v) j = dict_get eqk d j.
Proof.
  intros Hkj. induction d as [|[k' v'] r IH]; simpl.
  - now rewrite (eqk_false k j Hkj).
  - destruct (eqk k' k) eqn:E; simpl.
    + apply eqk_spec in E. subst. now rewrite (eqk_false k j Hkj).
    + destruct (eqk k' j); [reflexivity | exact IH].
Qed.

End DictFacts.

Lemma key_eqb_spec (a b : option string) : key_eqb a b = true <-> a = b.
Proof.
  destruct a as [x|], b as [y|]; simpl; try (split; congruence).
  rewrite String.eqb_eq. split; congruence.
Qed.

(** ** Claims C2 and C8: profile choices *)

Section ProfileChoices.

Variable xml_tree : Type.
Variable et_parse : string -> result xml_tree.
Variable refs : xml_tree -> option string -> string -> list (option string).
Variable profiles : xml_tree -> string -> string -> string -> list (option string * string).

Lemma add_profiles_unique (ps : list (option string * string)) (d : profile_map) :
  keys_unique key_eqb d -> keys_unique key_eqb (add_profiles ps d).
Proof.
  revert d. induction ps as [|p ps IH]; intros d H; simpl; [exact H|].
  apply IH. apply dict_set_keys_unique; [exact key_eqb_spec | exact H].
Qed.

Lemma scrape_profiles_unique (t : xml_tree) (xid : option string) (ns pns : string)
    (d d' : profile_map) :
  keys_unique key_eqb d ->
  scrape_profiles xml_tree refs profiles t xid ns pns d = Ok d' ->
  keys_unique key_eqb d'.
Proof.
  unfold scrape_profiles. generalize (refs t xid ns) as rs.
  intros rs. revert d. induction rs as [|[href|] rs IH]; intros d H E; simpl in E.
  - injection E as <-. exact H.
  - eapply IH; [apply add_profiles_unique; exact H | exact E].
  - discriminate.
Qed.

Lemma empty_keys_unique : keys_unique key_eqb ([] : profile_map).
Proof. intros k. unfold dict_count. simpl. lia. Qed.

Notation choices := (get_profile_choices_for_input xml_tree et_parse refs profiles).
Notation scrape := (scrape_profiles xml_tree refs profiles).

(** C2 (amended): when the content document parses, every normal return of
    [get_profile_choices_for_input] is a map whose keys are unique and in
    which the key [""] occurs exactly once, mapped to ["(default)"]; when
    the content document cannot be read or parsed, the function returns the
    empty map, without the [""] entry; any other exception of the parser
    propagates. *)
Theorem profile_choices_sentinel (input : string) (tailoring xid : option string) :
  match et_parse input with
  | Ok _ =>
      forall m, choices input tailoring xid = Ok m ->
        dict_count key_eqb m (Some "") = 1%nat /\
        dict_get key_eqb m (Some "") = Some "(default)" /\
        keys_unique key_eqb m
  | Raise IOError | Raise ParseError => choices input tailoring xid = Ok []
  | Raise e => choices input tailoring xid = Raise e
  end.
Proof.
  unfold get_profile_choices_for_input.
  destruct (et_parse input) as [t|[]]; try reflexivity.
  intros m Hm.
  destruct (scrape t xid ns_source_11 ns_xccdf_11 []) as [d1|e] eqn:E1;
    simpl in Hm; [|discriminate].
  destruct (scrape t xid ns_source_12 ns_xccdf_12 d1) as [d2|e] eqn:E2;
    simpl in Hm; [|discriminate].
  assert (U2 : keys_unique key_eqb d2).
  { eapply scrape_profiles_unique; [|exact E2].
    eapply scrape_profiles_unique; [apply empty_keys_unique | exact E1]. }
  assert (Hfinal : forall d3, keys_unique key_eqb d3 ->
            Ok (dict_set key_eqb d3 (Some "") "(default)") = Ok m ->
            dict_count key_eqb m (Some "") = 1%nat /\
            dict_get key_eqb m (Some "") = Some "(default)" /\ keys_unique key_eqb m).
  { intros d3 U3 [= <-]. split; [|split].
    - apply dict_set_count_same; [exact key_eqb_spec | apply U3].
    - apply dict_get_set_same. exact key_eqb_spec.
    - apply dict_set_keys_unique; [exact key_eqb_spec | exact U3]. }
  destruct tailoring as [tf|]; [|exact (Hfinal d2 U2 Hm)].
  destruct (String.eqb tf ""); [exact (Hfinal d2 U2 Hm)|].
  destruct (et_parse tf) as [tt|e]; simpl in Hm; [|discriminate].
  destruct (scrape tt None ns_source_11 ns_xccdf_11 d2) as [d3|e] eqn:E3;
    simpl in Hm; [|discriminate].
  destruct (scrape tt None ns_source_12 ns_xccdf_12 d3) as [d4|e] eqn:E4;
    simpl in Hm; [|discriminate].
  apply (Hfinal d4); [|exact Hm].
  eapply scrape_profiles_unique; [|exact E4].
  eapply scrape_profiles_unique; [exact U2 | exact E3].
Qed.

(** C8: an [IOError] or [ParseError] on the content document makes
    [get_profile_choices_for_input] return normally, with the map built so
    far (empty); the failure [e] of parsing a given, non-empty tailoring path
    is raised to the caller once the content document has been scraped. *)
Theorem profile_choices_failure_handling (input : string) (xid : option string) :
  ((et_parse input = Raise IOError \/ et_parse input = Raise ParseError) ->
     forall tailoring, choices input tailoring xid = Ok []) /\
  (forall t d tf e,
     et_parse input = Ok t ->
     (r <- scrape t xid ns_source_11 ns_xccdf_11 [] ;;
      scrape t xid ns_source_12 ns_xccdf_12 r) = Ok d ->
     tf <> "" -> et_parse tf = Raise e ->
     choices input (Some tf) xid = Raise e).
Proof.
  split.
  - intros [H | H] tailoring; unfold get_profile_choices_for_input; now rewrite H.
  - intros t d tf e Ht Hd Htf He. unfold get_profile_choices_for_input.
    rewrite Ht.
    destruct (scrape t xid ns_source_11 ns_xccdf_11 []) as [d1|e1];
      simpl in Hd |- *; [|discriminate].
    rewrite Hd. simpl. apply String.eqb_neq in Htf. rewrite Htf, He. reflexivity.
Qed.

End ProfileChoices.

(** ** Claim C9: [generate_fix_for_result] *)

Section GenerateFix.

Variable xml_tree : Type.
Variable et_parse : string -> result xml_tree.
Variable find_test_result : xml_tree -> option (option string).
Variable path_exists : string -> bool.
Variable check_output : list string -> result string.

Notation gen_fix :=
  (generate_fix_for_result xml_tree et_parse find_test_result path_exists check_output).

Lemma fix_type_to_template_table (fix_type : string) :
  _fix_type_to_template fix_type =
  match spec_fix_template fix_type with
  | Some t => Ok t
  | None => Raise KeyError
  end.
Proof.
  unfold _fix_type_to_template, spec_fix_template, fix_templates. cbn [dict_get].
  rewrite !(String.eqb_sym fix_type).
  destruct (String.eqb "bash" fix_type); [reflexivity|].
  destruct (String.eqb "ansible" fix_type); [reflexivity|].
  destruct (String.eqb "puppet" fix_type); reflexivity.
Qed.

Lemma bind_ok_r {A : Type} (m : result A) : (x <- m ;; Ok x) = m.
Proof. now destruct m. Qed.

(** C9 (amended): [_fix_type_to_template] is the table
    bash/ansible/puppet; a fix type outside it always makes
    [generate_fix_for_result] raise.  The function first raises a not-found
    error when [results_path] does not exist, then raises the parser's
    exception when the results document does not parse, the malformed-results
    error when it holds no TestResult, [KeyError] when that TestResult has no
    id; with a TestResult id [id] and a fix type in the table it runs
    [oscap_path, "xccdf", "generate", "fix", "--result-id", id, "--template",
    template], then ["--xccdf-id", xccdf_id] when an id is given, then
    [results_path], and returns that command's output. *)
Theorem generate_fix_for_result_behaviour (config : Config)
    (results_path fix_type : string) (xccdf_id : option string) :
  (_fix_type_to_template fix_type =
     match spec_fix_template fix_type with Some t => Ok t | None => Raise KeyError end) /\
  (spec_fix_template fix_type = None ->
     exists e, gen_fix config results_path fix_type xccdf_id = Raise e) /\
  (path_exists results_path = false ->
     gen_fix config results_path fix_type xccdf_id =
     Raise (RuntimeError ("Can't generate fix for scan result. Expected "
                          ++ "results XML at '" ++ results_path
                          ++ "' but the file doesn't exist."))) /\
  (forall e, path_exists results_path = true -> et_parse results_path = Raise e ->
     gen_fix config results_path fix_type xccdf_id = Raise e) /\
  (forall tree, path_exists results_path = true -> et_parse results_path = Ok tree ->
     (find_test_result tree = None ->
        gen_fix config results_path fix_type xccdf_id =
        Raise (RuntimeError ("Results XML '" ++ results_path
                             ++ "' doesn't contain any results."))) /\
     (find_test_result tree = Some None ->
        gen_fix config results_path fix_type xccdf_id = Raise KeyError) /\
     (forall id template,
        find_test_result tree = Some (Some id) ->
        spec_fix_template fix_type = Some template ->
        gen_fix config results_path fix_type xccdf_id =
        check_output
          ([oscap_path config; "xccdf"; "generate"; "fix";
            "--result-id"; id; "--template"; template]
           ++ match xccdf_id with Some x => ["--xccdf-id"; x] | None => [] end
           ++ [results_path])%list)).
Proof.
  unfold generate_fix_for_result, _get_result_id.
  rewrite fix_type_to_template_table.
  split; [reflexivity|]. split; [|split; [|split]].
  - intros Hnone. rewrite Hnone.
    destruct (path_exists results_path); simpl; [|eexists; reflexivity].
    destruct (et_parse results_path) as [tree|e]; simpl; [|eexists; reflexivity].
    destruct (find_test_result tree) as [[id|]|]; simpl; eexists; reflexivity.
  - intros H. now rewrite H.
  - intros e Hex He. now rewrite Hex, He.
  - intros tree Hex Ht. split; [|split].
    + intros Hn. rewrite Hex, Ht. cbn [bind negb]. now rewrite Hn.
    + intros Hn. rewrite Hex, Ht. cbn [bind negb]. now rewrite Hn.
    + intros id template Hid Htmpl.
      rewrite Hex, Ht. cbn [bind negb]. rewrite Hid, Htmpl. cbn [bind].
      rewrite bind_ok_r. f_equal.
      destruct xccdf_id; reflexivity.
Qed.

End GenerateFix.

(** ** The file system *)

Lemma mkdtemp_loop_fresh (n : nat) (dir : string) (s : fs) (d : string) (s1 : fs) :
  mkdtemp_loop n dir s = (Ok d, s1) ->
  dir_exists d s = false /\ fs_dirs s1 = (d, []) :: fs_dirs s.
Proof.
  revert s. induction n as [|n IH]; intros s H; simpl in H; [discriminate|].
  destruct (dir_exists _ (mkFS (fs_dirs s) (S (fs_seed s)))) eqn:E.
  - apply IH in H. exact H.
  - injection H as <- <-. split; [exact E | reflexivity].
Qed.

(** [mkdtemp] creates a directory that did not exist, and nothing else. *)
Lemma mkdtemp_fresh (dir : string) (s : fs) (d : string) (s1 : fs) :
  mkdtemp dir s = (Ok d, s1) ->
  dir_exists d s = false /\ fs_dirs s1 = (d, []) :: fs_dirs s.
Proof.
  unfold mkdtemp. destruct (dir_exists dir s); [apply mkdtemp_loop_fresh | discriminate].
Qed.

Lemma fs_put_dir_exists (x d name c : string) (s : fs) :
  dir_exists x (fs_put d name c s) = dir_exists x s.
Proof.
  unfold dir_exists, fs_put. simpl. induction (fs_dirs s) as [|[k f] r IH]; simpl; [reflexivity|].
  destruct (String.eqb k d); simpl; now rewrite IH.
Qed.

Lemma fs_put_head (d name c : string) (s : fs) files rest :
  fs_dirs s = (d, files) :: rest ->
  exists rest', fs_dirs (fs_put d name c s) = (d, dict_set String.eqb files name c) :: rest'.
Proof.
  intros H. unfold fs_put. simpl. rewrite H. simpl. rewrite String.eqb_refl. eexists. reflexivity.
Qed.

Lemma file_content_head (d name : string) (s : fs) files rest :
  fs_dirs s = (d, files) :: rest -> file_content d name s = dict_get String.eqb files name.
Proof. intros H. unfold file_content. rewrite H. simpl. now rewrite String.eqb_refl. Qed.

Lemma string_eqb_spec (a b : string) : String.eqb a b = true <-> a = b.
Proof. apply String.eqb_eq. Qed.

Lemma fs_put_file_content (d name c : string) (s : fs) :
  dir_exists d s = true -> file_content d name (fs_put d name c s) = Some c.
Proof.
  unfold dir_exists, file_content, fs_put. simpl.
  induction (fs_dirs s) as [|[k f] r IH]; simpl; [discriminate|].
  destruct (String.eqb k d) eqn:E; simpl; rewrite ?E.
  - intros _. apply dict_get_set_same. exact string_eqb_spec.
  - exact IH.
Qed.

(** ** Claims C3, C4 and C10: [evaluate] *)

Lemma prefix_app_l (p a x : string) :
  String.prefix p a = true -> String.prefix p (a ++ x) = true.
Proof.
  revert p. induction a as [|c a IH]; intros p H.
  - destruct p; [destruct x; reflexivity | discriminate].
  - destruct p as [|c' p]; [destruct (String c a ++ x); reflexivity|].
    cbn [String.prefix append] in H |- *.
    destruct (ascii_dec c' c); [exact (IH p H) | discriminate].
Qed.

(** The path returned by [mkdtemp dir] is [dir] followed by the name. *)
Lemma mkdtemp_loop_prefix (n : nat) (dir : string) (s : fs) (d : string) (s1 : fs) :
  mkdtemp_loop n dir s = (Ok d, s1) -> exists x, d = dir ++ x.
Proof.
  revert s. induction n as [|n IH]; intros s H; simpl in H; [discriminate|].
  destruct (dir_exists _ (mkFS (fs_dirs s) (S (fs_seed s)))).
  - exact (IH _ H).
  - injection H as <- _. eexists. reflexivity.
Qed.

Lemma mkdtemp_prefix (dir : string) (s : fs) (d : string) (s1 : fs) :
  mkdtemp dir s = (Ok d, s1) -> exists x, d = dir ++ x.
Proof.
  unfold mkdtemp. destruct (dir_exists dir s); [apply mkdtemp_loop_prefix | discriminate].
Qed.

Section EvaluateFacts.

Variable spawn : list string -> string -> call_outcome.

(** [evaluate] after [mkdtemp] has created [d]: the two empty output files,
    then [get_evaluation_args], the process and the [exit_code] file. *)
Lemma evaluate_after_mkdtemp (spec : EvaluationSpec) (config : Config) (s s1 : fs)
    (d : string) :
  is_valid spec = true ->
  mkdtemp (work_in_progress_dir config) s = (Ok d, s1) ->
  evaluate spawn spec config s =
    (let s2 := fs_put d "stderr" "" (fs_put d "stdout" "" s1) in
     match get_evaluation_args spec config with
     | Raise e => (Raise e, s2)
     | Ok args =>
         let '(r, s3) := call_redirected spawn args d s2 in
         match r with
         | Ok code => (Ok d, fs_put d "exit_code" (str_int code) s3)
         | Raise e => (Raise e, s3)
         end
     end).
Proof.
  intros Hv Hmk.
  destruct (mkdtemp_fresh _ _ _ _ Hmk) as [_ Hd].
  assert (E1 : dir_exists d s1 = true)
    by (unfold dir_exists; rewrite Hd; simpl; now rewrite String.eqb_refl).
  unfold evaluate. rewrite Hv. cbn [negb].
  unfold st_bind at 1. cbv beta. rewrite Hmk. cbv beta iota.
  unfold st_bind at 1. unfold write_file at 1. rewrite E1. cbv beta iota.
  unfold st_bind at 1. unfold write_file at 1. rewrite fs_put_dir_exists, E1. cbv beta iota.
  unfold st_bind at 1. unfold st_lift at 1.
  destruct (get_evaluation_args spec config) as [args|e]; [|reflexivity]. cbv beta iota.
  unfold st_bind at 1.
  destruct (call_redirected spawn args d _) as [[code|e] s3] eqn:Ec; [|reflexivity].
  unfold call_redirected in Ec.
  assert (E3 : dir_exists d s3 = true).
  { destruct (spawn args d); [injection Ec as _ <- | injection Ec as _ <-];
      rewrite ?fs_put_dir_exists; exact E1. }
  unfold st_bind, write_file. rewrite E3. reflexivity.
Qed.

(** The [try]/[except] around [subprocess.call] never raises; the code is
    the child's exit code, or 1 when it could not be started. *)
Lemma call_redirected_code (args : list string) (d : string) (s : fs) :
  exists s', call_redirected spawn args d s =
             (Ok (match spawn args d with Exited c _ _ => c | LaunchFailed => 1 end), s')
             /\ (dir_exists d s' = dir_exists d s).
Proof.
  unfold call_redirected. destruct (spawn args d); eexists; split; try reflexivity.
  now rewrite !fs_put_dir_exists.
Qed.

(** A path returned by [evaluate] names a run directory that did not exist
    before and exists after; it is [work_in_progress_dir] followed by the
    name [mkdtemp] chose. *)
Lemma evaluate_ok_run_dir (spec : EvaluationSpec) (config : Config) (s : fs)
    (d : string) (s' : fs) :
  evaluate spawn spec config s = (Ok d, s') ->
  dir_exists d s = false /\ dir_exists d s' = true /\
  exists x, d = work_in_progress_dir config ++ x.
Proof.
  intros H.
  destruct (is_valid spec) eqn:Hv.
  2:{ unfold evaluate in H. rewrite Hv in H. discriminate. }
  destruct (mkdtemp (work_in_progress_dir config) s) as [[d0|e] s1] eqn:Hmk.
  - destruct (mkdtemp_fresh _ _ _ _ Hmk) as [Hfresh Hdirs].
    destruct (mkdtemp_prefix _ _ _ _ Hmk) as [x Hx].
    assert (E1 : dir_exists d0 s1 = true)
      by (unfold dir_exists; rewrite Hdirs; simpl; now rewrite String.eqb_refl).
    rewrite (evaluate_after_mkdtemp spec config s s1 d0 Hv Hmk) in H. cbv zeta in H.
    destruct (get_evaluation_args spec config) as [args|e]; [|discriminate].
    unfold call_redirected in H. destruct (spawn args d0); simpl in H;
      injection H as <- <-; (split; [exact Hfresh|]);
      (split; [rewrite !fs_put_dir_exists; exact E1 | exists x; exact Hx]).
  - unfold evaluate in H. rewrite Hv in H. cbn [negb] in H.
    unfold st_bind at 1 in H. rewrite Hmk in H. discriminate.
Qed.

(** C3 (amended): for an invalid spec [evaluate] raises; for a valid one it
    raises the exception of [mkdtemp] or of [get_evaluation_args] (unknown
    target, empty tool path, bad ssh port) when there is one, and otherwise
    returns the path of the directory it created, whatever the process does
    (any exit code, or no start at all). That directory did not exist
    before the call and exists after it, and its path is absolute (starts
    with "/") whenever [config.work_in_progress_dir] is absolute. *)
Theorem evaluate_outcome (spec : EvaluationSpec) (config : Config) (s : fs) :
  fst (evaluate spawn spec config s) =
  (if is_valid spec then
    match fst (mkdtemp (work_in_progress_dir config) s) with
    | Raise e => Raise e
    | Ok d =>
        match get_evaluation_args spec config with
        | Ok _ => Ok d
        | Raise e => Raise e
        end
    end
  else Raise (RuntimeError "Can't evaluate an invalid EvaluationSpec.")) /\
  forall d s', evaluate spawn spec config s = (Ok d, s') ->
    dir_exists d s = false /\ dir_exists d s' = true /\
    (startswith (work_in_progress_dir config) "/" = true -> startswith d "/" = true).
Proof.
  split.
  2:{ intros d s' H. destruct (evaluate_ok_run_dir _ _ _ _ _ H) as (F & E & x & ->).
      split; [exact F|]. split; [exact E|]. unfold startswith. apply prefix_app_l. }
  destruct (is_valid spec) eqn:Hv; [|unfold evaluate; rewrite Hv; reflexivity].
  destruct (mkdtemp (work_in_progress_dir config) s) as [[d|e] s1] eqn:Hmk.
  - rewrite (evaluate_after_mkdtemp spec config s s1 d Hv Hmk). cbv zeta. simpl fst.
    destruct (get_evaluation_args spec config) as [args|e]; [|reflexivity].
    destruct (call_redirected_code args d (fs_put d "stderr" "" (fs_put d "stdout" "" s1)))
      as (s' & -> & _).
    reflexivity.
  - unfold evaluate. rewrite Hv. cbn [negb]. unfold st_bind at 1. rewrite Hmk. reflexivity.
Qed.

(** C4: when [evaluate] gets to run the process (valid spec, run directory
    created, arguments resolved), it returns the run directory, and that
    directory holds an [exit_code] file whose text reads back through
    [int()] as the exit code of the child; when the child could not be
    started the text is exactly ["1"]. *)
Theorem evaluate_exit_code_file (spec : EvaluationSpec) (config : Config) (s s1 : fs)
    (d : string) (args : list string) :
  is_valid spec = true ->
  mkdtemp (work_in_progress_dir config) s = (Ok d, s1) ->
  get_evaluation_args spec config = Ok args ->
  exists s', evaluate spawn spec config s = (Ok d, s') /\
    exists content, file_content d "exit_code" s' = Some content /\
      match spawn args d with
      | Exited code _ _ => py_int content = Some code
      | LaunchFailed => content = "1" /\ py_int content = Some 1
      end.
Proof.
  intros Hv Hmk Ha.
  destruct (mkdtemp_fresh _ _ _ _ Hmk) as [_ Hd].
  assert (E1 : dir_exists d s1 = true)
    by (unfold dir_exists; rewrite Hd; simpl; now rewrite String.eqb_refl).
  rewrite (evaluate_after_mkdtemp spec config s s1 d Hv Hmk), Ha. cbv zeta.
  destruct (call_redirected_code args d (fs_put d "stderr" "" (fs_put d "stdout" "" s1)))
    as (s3 & -> & E3).
  rewrite !fs_put_dir_exists, E1 in E3.
  eexists. split; [reflexivity|].
  eexists. split; [apply fs_put_file_content; exact E3|].
  destruct (spawn args d) as [code out err|].
  - apply py_int_str_int.
  - split; reflexivity.
Qed.

(** C10: when the spec is valid but [get_evaluation_args] raises (unknown
    target, empty tool path), [evaluate] raises that exception after having
    created a new run directory holding an empty [stdout] and an empty
    [stderr]; the directory stays and has no [exit_code] file. *)
Theorem evaluate_argument_error_leaves_directory (spec : EvaluationSpec) (config : Config)
    (s s1 : fs) (d : string) (e : exn) :
  is_valid spec = true ->
  mkdtemp (work_in_progress_dir config) s = (Ok d, s1) ->
  get_evaluation_args spec config = Raise e ->
  exists s', evaluate spawn spec config s = (Raise e, s') /\
    dir_exists d s = false /\ dir_exists d s' = true /\
    file_content d "stdout" s' = Some "" /\
    file_content d "stderr" s' = Some "" /\
    file_content d "exit_code" s' = None.
Proof.
  intros Hv Hmk Ha.
  destruct (mkdtemp_fresh _ _ _ _ Hmk) as [Hnew Hd].
  rewrite (evaluate_after_mkdtemp spec config s s1 d Hv Hmk), Ha. cbv zeta.
  eexists. split; [reflexivity|]. split; [exact Hnew|].
  destruct (fs_put_head d "stdout" "" s1 [] (fs_dirs s) Hd) as [r1 H1].
  destruct (fs_put_head d "stderr" "" _ _ _ H1) as [r2 H2].
  split; [unfold dir_exists; rewrite H2; simpl; now rewrite String.eqb_refl|].
  rewrite !(file_content_head _ _ _ _ _ H2). simpl.
  repeat split; reflexivity.
Qed.

End EvaluateFacts.

(** ** Witnesses and counterexamples *)

(** C2: with an unreadable content path the result is the empty map, which
    has no [""] entry. *)
Lemma profile_choices_unreadable_content_no_sentinel :
  get_profile_choices_for_input unit ds_parse ds_refs ds_profiles
    "/nonexistent/ssg-ds.xml" None None = Ok [] /\
  dict_count key_eqb ([] : profile_map) (Some "") = 0%nat.
Proof. split; reflexivity. Qed.

Lemma profile_choices_sentinel_witness :
  get_profile_choices_for_input unit ds_parse ds_refs ds_profiles
    "/usr/share/ssg-ds.xml" None None
  = Ok [(Some "p1", "Title A"); (Some "p2", "Title B"); (Some "", "(default)")] /\
  dict_count key_eqb [(Some "p1", "Title A"); (Some "p2", "Title B"); (Some "", "(default)")]
    (Some "") = 1%nat.
Proof.
  split; [vm_compute; reflexivity|].
  exact (proj1 (profile_choices_sentinel unit ds_parse ds_refs ds_profiles
                  "/usr/share/ssg-ds.xml" None None _ eq_refl)).
Defined.

Lemma profile_choices_failure_handling_witness :
  get_profile_choices_for_input unit ds_parse ds_refs ds_profiles
    "/nonexistent/ssg-ds.xml" (Some "/usr/share/tailoring.xml") None = Ok [] /\
  get_profile_choices_for_input unit ds_parse ds_refs ds_profiles
    "/usr/share/ssg-ds.xml" (Some "/nonexistent/tailoring.xml") None = Raise IOError.
Proof.
  split.
  - apply (proj1 (profile_choices_failure_handling unit ds_parse ds_refs ds_profiles
                    "/nonexistent/ssg-ds.xml" None)).
    left. reflexivity.
  - apply (proj2 (profile_choices_failure_handling unit ds_parse ds_refs ds_profiles
                    "/usr/share/ssg-ds.xml" None)
             tt [(Some "p1", "Title A"); (Some "p2", "Title B")]);
      [reflexivity | vm_compute; reflexivity | discriminate | reflexivity].
Defined.

(** C9: when the results file does not exist, no command is run, whatever
    the fix type. *)
Lemma generate_fix_missing_results_file :
  generate_fix_for_result unit res_parse res_test_result res_missing fix_output
    cfg_ssh_only results_xml "bash" None
  = Raise (RuntimeError ("Can't generate fix for scan result. Expected "
                         ++ "results XML at '" ++ results_xml
                         ++ "' but the file doesn't exist.")).
Proof. reflexivity. Qed.

Lemma generate_fix_for_result_behaviour_witness :
  generate_fix_for_result unit res_parse res_test_result res_present fix_output
    cfg_ssh_only results_xml "bash" (Some "xccdf_benchmark")
  = fix_output ["/usr/bin/oscap"; "xccdf"; "generate"; "fix"; "--result-id";
                "xccdf_org.open-scap_testresult_default"; "--template";
                "urn:xccdf:fix:script:sh"; "--xccdf-id"; "xccdf_benchmark"; results_xml].
Proof.
  apply (proj2 (proj2 (proj2 (proj2 (generate_fix_for_result_behaviour
           unit res_parse res_test_result res_present fix_output
           cfg_ssh_only results_xml "bash" (Some "xccdf_benchmark"))))) tt);
    reflexivity.
Defined.

(** C3: a valid spec whose tool path is empty, or whose target is unknown,
    makes [evaluate] raise; with a relative [work_in_progress_dir] the
    returned run directory is a relative path. *)
Lemma evaluate_outcome_counterexamples :
  fst (evaluate spawn_noncompliant (spec_for "localhost") cfg_no_oscap fs0)
    = Raise (tool_not_found "oscap" "localhost") /\
  fst (evaluate spawn_noncompliant (spec_for "foo://x") cfg_ssh_only fs0)
    = Raise (RuntimeError "Unrecognized target 'foo://x' in evaluation spec.") /\
  fst (evaluate spawn_noncompliant (spec_for "localhost") cfg_relative fs_relative)
    = Ok "wip/tmp0" /\
  startswith "wip/tmp0" "/" = false.
Proof. split; [|split; [|split]]; vm_compute; reflexivity. Qed.

Lemma evaluate_outcome_witness :
  fst (evaluate spawn_missing (spec_for "localhost") cfg_ssh_only fs0)
    = Ok "/var/lib/oscapd/wip/tmp0" /\
  startswith "/var/lib/oscapd/wip/tmp0" "/" = true.
Proof.
  split; [rewrite (proj1 (evaluate_outcome _ _ _ _)); vm_compute; reflexivity|].
  apply (proj2 (evaluate_outcome spawn_missing (spec_for "localhost") cfg_ssh_only fs0)
           "/var/lib/oscapd/wip/tmp0"
           (snd (evaluate spawn_missing (spec_for "localhost") cfg_ssh_only fs0)));
    vm_compute; reflexivity.
Defined.

Lemma evaluate_exit_code_file_witness :
  exists s', evaluate spawn_missing (spec_for "localhost") cfg_ssh_only fs0
             = (Ok "/var/lib/oscapd/wip/tmp0", s') /\
    exists content, file_content "/var/lib/oscapd/wip/tmp0" "exit_code" s' = Some content /\
      content = "1" /\ py_int content = Some 1.
Proof.
  exact (evaluate_exit_code_file spawn_missing (spec_for "localhost") cfg_ssh_only
           fs0 fs0_after_mkdtemp "/var/lib/oscapd/wip/tmp0" ["/usr/bin/oscap"; "xccdf"; "eval"]
           eq_refl ltac:(vm_compute; reflexivity) eq_refl).
Defined.

Lemma evaluate_argument_error_leaves_directory_witness :
  exists s', evaluate spawn_noncompliant (spec_for "foo://x") cfg_ssh_only fs0
             = (Raise (RuntimeError "Unrecognized target 'foo://x' in evaluation spec."), s') /\
    dir_exists "/var/lib/oscapd/wip/tmp0" fs0 = false /\
    dir_exists "/var/lib/oscapd/wip/tmp0" s' = true /\
    file_content "/var/lib/oscapd/wip/tmp0" "stdout" s' = Some "" /\
    file_content "/var/lib/oscapd/wip/tmp0" "stderr" s' = Some "" /\
    file_content "/var/lib/oscapd/wip/tmp0" "exit_code" s' = None.
Proof.
  exact (evaluate_argument_error_leaves_directory spawn_noncompliant (spec_for "foo://x")
           cfg_ssh_only fs0 fs0_after_mkdtemp "/var/lib/oscapd/wip/tmp0"
           (RuntimeError "Unrecognized target 'foo://x' in evaluation spec.")
           eq_refl ltac:(vm_compute; reflexivity) eq_refl).
Defined.

(** ** Further properties of the module *)

Lemma str_length_app (x y : string) : String.length (x ++ y) = (String.length x + String.length y)%nat.
Proof. induction x; simpl; congruence. Qed.

Lemma str_app_assoc (x y z : string) : (x ++ y) ++ z = x ++ y ++ z.
Proof. induction x; simpl; congruence. Qed.

Lemma substring_app_l (x y : string) (m : nat) :
  substring (String.length x) m (x ++ y) = substring 0 m y.
Proof. induction x; simpl; [reflexivity | exact IHx]. Qed.

Lemma endswith_slash_last (x : string) (c : ascii) :
  endswith (x ++ String c "") "/" = Ascii.eqb c "/".
Proof.
  unfold endswith. rewrite str_length_app. simpl String.length.
  replace (String.length x + 1 - 1)%nat with (String.length x) by lia.
  rewrite substring_app_l.
  destruct (1 <=? String.length x + 1)%nat eqn:E; [|apply Nat.leb_gt in E; lia].
  simpl. destruct (Ascii.eqb c "/"); reflexivity.
Qed.

Lemma digits_split_last (w : string) :
  Forall (fun c => is_digit c = true) (list_ascii_of_string w) -> w <> "" ->
  exists w' c, w = w' ++ String c "" /\ is_digit c = true.
Proof.
  induction w as [|a w IH]; intros H Hne; [congruence|].
  simpl in H. inversion H as [|? ? Ha Hw]; subst.
  destruct w as [|b w'].
  - exists "", a. split; [reflexivity | exact Ha].
  - destruct (IH Hw ltac:(discriminate)) as (w'' & c & -> & Hc).
    exists (String a w''), c. split; [reflexivity | exact Hc].
Qed.

(** [str(z)]: an optional minus sign, then at least one digit. *)
Lemma str_int_shape (z : Z) :
  exists (neg : bool) (w : string),
    str_int z = (if neg then String "-" w else w) /\
    Forall (fun c => is_digit c = true) (list_ascii_of_string w) /\ w <> "".
Proof.
  unfold str_int. destruct (Z.to_int z) as [u|u]; simpl;
    destruct (string_of_uint_digits u) as [Hd Hne].
  - exists false, (NilZero.string_of_uint u). split; [reflexivity|]. split; [exact Hd|].
    intros E. rewrite E in Hne. apply Hne. reflexivity.
  - exists true, (NilZero.string_of_uint u). split; [reflexivity|]. split; [exact Hd|].
    intros E. rewrite E in Hne. apply Hne. reflexivity.
Qed.

Lemma str_int_last_digit (z : Z) :
  exists w c, str_int z = w ++ String c "" /\ is_digit c = true.
Proof.
  destruct (str_int_shape z) as (neg & w & -> & Hd & Hne).
  destruct (digits_split_last w Hd Hne) as (w' & c & -> & Hc).
  destruct neg; [exists (String "-" w') | exists w']; exists c; split; auto.
Qed.

Lemma str_int_not_slash (z : Z) : startswith (str_int z) "/" = false.
Proof.
  destruct (str_int_shape z) as (neg & w & -> & Hd & Hne).
  destruct neg; [reflexivity|].
  destruct w as [|a w]; [congruence|]. simpl in Hd. inversion Hd; subst.
  unfold startswith. cbn [String.prefix].
  destruct (ascii_dec "/" a) as [<-|]; [discriminate | reflexivity].
Qed.

Lemma digits_no_colon (w : string) :
  Forall (fun c => is_digit c = true) (list_ascii_of_string w) -> str_contains ":" w = false.
Proof.
  induction w as [|a w IH]; intros H; [reflexivity|].
  simpl in H. inversion H as [|? ? Ha Hw]; subst. simpl. rewrite IH by exact Hw.
  destruct (Ascii.eqb a ":") eqn:E; [|reflexivity].
  apply Ascii.eqb_eq in E. subst. discriminate.
Qed.

Lemma str_int_no_colon (z : Z) : str_contains ":" (str_int z) = false.
Proof.
  destruct (str_int_shape z) as (neg & w & -> & Hd & _).
  destruct neg; [simpl|]; apply digits_no_colon; exact Hd.
Qed.

Lemma str_int_not_empty (z : Z) : String.eqb (str_int z) "" = false.
Proof.
  destruct (str_int_shape z) as (neg & w & -> & _ & Hne).
  destruct neg; [reflexivity|]. destruct w; [congruence | reflexivity].
Qed.

Lemma join_result_id_path (results_dir : string) (result_id : Z) :
  os_path_join results_dir [str_int result_id; "results.xml"] =
  ((if String.eqb results_dir "" || endswith results_dir "/" then results_dir
    else results_dir ++ "/") ++ str_int result_id ++ "/results.xml").
Proof.
  unfold os_path_join. simpl fold_left. rewrite str_int_not_slash.
  destruct (str_int_last_digit result_id) as (w & c & Ew & Hc).
  assert (Hend : forall x, endswith (x ++ str_int result_id) "/" = false).
  { intros x. rewrite Ew, <- str_app_assoc, endswith_slash_last.
    destruct (Ascii.eqb c "/") eqn:E; [|reflexivity].
    apply Ascii.eqb_eq in E. subst. discriminate. }
  assert (Hne : forall x, String.eqb (x ++ str_int result_id) "" = false).
  { intros x. destruct x; [apply str_int_not_empty | reflexivity]. }
  destruct (String.eqb results_dir "" || endswith results_dir "/").
  - cbn [startswith String.prefix]. rewrite Hne, Hend. exact (str_app_assoc _ _ _).
  - cbn [startswith String.prefix].
    replace (results_dir ++ String "/" (str_int result_id))
      with ((results_dir ++ "/") ++ str_int result_id) by apply str_app_assoc.
    rewrite Hne, Hend. exact (str_app_assoc _ _ _).
Qed.

(** [generate_report_for_result] looks for [results_dir/<id>/results.xml]:
    the text of an integer id never starts with a slash, so it never restarts
    the path, and exactly one separator is put between the parts. *)
Theorem results_path_of_result_id (results_dir : string) (result_id : Z) :
  os_path_join results_dir [str_int result_id; "results.xml"] =
  ((if String.eqb results_dir "" || endswith results_dir "/" then results_dir
    else results_dir ++ "/") ++ str_int result_id ++ "/results.xml").
Proof. apply join_result_id_path. Qed.

Lemma lstrip_ws_app_last (m : list ascii) (c : ascii) :
  py_isspace c = false -> exists l2, lstrip_ws (m ++ [c]) = (l2 ++ [c])%list.
Proof.
  intros Hc. induction m as [|a m IH]; simpl.
  - rewrite Hc. exists []. reflexivity.
  - destruct (py_isspace a); [exact IH|]. exists (a :: m). reflexivity.
Qed.

Lemma strip_ws_head (c : ascii) (l : list ascii) :
  py_isspace c = false -> exists l', strip_ws (c :: l) = c :: l'.
Proof.
  intros Hc. unfold strip_ws. simpl. rewrite Hc. simpl.
  destruct (lstrip_ws_app_last (List.rev l) c Hc) as [l2 ->].
  rewrite rev_app_distr. simpl. exists (List.rev l2). reflexivity.
Qed.

Lemma py_int_at_sign (r : string) : py_int (String "@" r) = None.
Proof.
  unfold py_int, py_int_of_list. cbn [list_ascii_of_string].
  destruct (strip_ws_head "@" (list_ascii_of_string r) eq_refl) as [l' ->].
  reflexivity.
Qed.

(** Any integer written in decimal, zero and negative ones included, is
    read back by [schedule_repeat_after] as that number of hours. *)
Theorem schedule_repeat_after_str_int (n : Z) :
  schedule_repeat_after (str_int n) = Ok n.
Proof.
  pose proof (py_int_str_int n) as Hn.
  unfold schedule_repeat_after.
  destruct (String.eqb (str_int n) "@daily") eqn:E1;
    [apply String.eqb_eq in E1; rewrite E1 in Hn; discriminate|].
  destruct (String.eqb (str_int n) "@weekly") eqn:E2;
    [apply String.eqb_eq in E2; rewrite E2 in Hn; discriminate|].
  destruct (String.eqb (str_int n) "@monthly") eqn:E3;
    [apply String.eqb_eq in E3; rewrite E3 in Hn; discriminate|].
  unfold int_. now rewrite Hn.
Qed.

(** A schedule string starting with ["@"] other than the three keywords
    ([@hourly], [@Daily], ...) raises [ValueError]. *)
Theorem schedule_repeat_after_other_keywords (r : string) :
  String "@" r <> "@daily" -> String "@" r <> "@weekly" -> String "@" r <> "@monthly" ->
  schedule_repeat_after (String "@" r) = Raise ValueError.
Proof.
  intros H1 H2 H3. unfold schedule_repeat_after.
  destruct (String.eqb_spec (String "@" r) "@daily"); [congruence|].
  destruct (String.eqb_spec (String "@" r) "@weekly"); [congruence|].
  destruct (String.eqb_spec (String "@" r) "@monthly"); [congruence|].
  unfold int_. now rewrite py_int_at_sign.
Qed.

Lemma prefix_app (p x : string) : String.prefix p (p ++ x) = true.
Proof.
  induction p as [|a p IH]; [destruct x; reflexivity|]. cbn [String.prefix append].
  destruct (ascii_dec a a); [exact IH | contradiction].
Qed.

Lemma str_contains_app (c : ascii) (x y : string) :
  str_contains c (x ++ y) = str_contains c x || str_contains c y.
Proof. induction x as [|a x IH]; simpl; [reflexivity|]. now rewrite IH, orb_assoc. Qed.

Lemma py_split_app_sep (c : ascii) (h w : string) :
  str_contains c h = false -> py_split c (h ++ String c w) = h :: py_split c w.
Proof.
  induction h as [|a h IH]; intros H; simpl.
  - now rewrite Ascii.eqb_refl.
  - simpl in H. apply orb_false_iff in H as [Ha Hh]. rewrite Ha, IH by exact Hh. reflexivity.
Qed.

Lemma py_split_parts (c : ascii) (s x : string) :
  In x (py_split c s) -> str_contains c x = false.
Proof.
  revert x. induction s as [|a s IH]; intros x Hin; simpl in Hin.
  - destruct Hin as [<-|[]]. reflexivity.
  - destruct (Ascii.eqb a c) eqn:Ea.
    + destruct Hin as [<-|Hin]; [reflexivity | now apply IH].
    + destruct (py_split c s) as [|y ys] eqn:Es.
      * destruct Hin as [<-|[]]. simpl. now rewrite Ea.
      * destruct Hin as [<-|Hin].
        -- simpl. rewrite Ea. apply IH. now left.
        -- apply IH. now right.
Qed.

(** Writing a host without a colon and an integer port as
    [ssh://host:port] or [ssh+sudo://host:port] and splitting it again gives
    back the host and the port. *)
Theorem split_ssh_target_roundtrip (host : string) (port : Z) :
  str_contains ":" host = false ->
  split_ssh_target ("ssh://" ++ host ++ ":" ++ str_int port) = Ok (host, port) /\
  split_ssh_target ("ssh+sudo://" ++ host ++ ":" ++ str_int port) = Ok (host, port).
Proof.
  intros Hh.
  assert (Hc : str_contains ":" (host ++ ":" ++ str_int port) = true)
    by (rewrite str_contains_app; cbn [str_contains append]; rewrite Ascii.eqb_refl; apply orb_true_r).
  assert (Hs : py_split ":" (host ++ ":" ++ str_int port) = [host; str_int port]).
  { change (":" ++ str_int port) with (String ":" (str_int port)).
    rewrite (py_split_app_sep _ _ _ Hh), py_split_no_sep by apply str_int_no_colon.
    reflexivity. }
  assert (Hi : int_ (str_int port) = Ok port) by (unfold int_; now rewrite py_int_str_int).
  unfold split_ssh_target, startswith. split.
  - rewrite prefix_app.
    replace (String.prefix "ssh+sudo://" ("ssh://" ++ host ++ ":" ++ str_int port)) with false
      by reflexivity.
    change (str_drop 6 ("ssh://" ++ host ++ ":" ++ str_int port))
      with (host ++ ":" ++ str_int port).
    simpl negb. cbv iota. rewrite Hc, Hs. simpl. now rewrite Hi.
  - rewrite prefix_app.
    replace (String.prefix "ssh://" ("ssh+sudo://" ++ host ++ ":" ++ str_int port)) with false
      by reflexivity.
    change (str_drop 11 ("ssh+sudo://" ++ host ++ ":" ++ str_int port))
      with (host ++ ":" ++ str_int port).
    simpl negb. cbv iota. rewrite Hc, Hs. simpl. now rewrite Hi.
Qed.

(** A host returned by [split_ssh_target] never contains a colon. *)
Theorem split_ssh_target_host_no_colon (t host : string) (port : Z) :
  split_ssh_target t = Ok (host, port) -> str_contains ":" host = false.
Proof.
  unfold split_ssh_target. intros H.
  destruct (negb (startswith t "ssh://") && negb (startswith t "ssh+sudo://")); [discriminate|].
  set (w := if startswith t "ssh+sudo://" then str_drop 11 t else str_drop 6 t) in H.
  destruct (str_contains ":" w) eqn:Ew.
  - pose proof (py_split_parts ":" w) as Hp.
    destruct (py_split ":" w) as [|h [|p [|q r]]]; try discriminate.
    unfold bind in H. destruct (int_ p); [|discriminate].
    injection H as <- _. apply Hp. now left.
  - injection H as <- _. exact Ew.
Qed.

(** Every argument list returned by [get_evaluation_args] starts with a
    binary, and that binary is the empty string only for a docker target. *)
Theorem get_evaluation_args_empty_binary (spec : EvaluationSpec) (config : Config)
    (args : list string) :
  get_evaluation_args spec config = Ok args ->
  exists binary rest, args = binary :: rest /\
    (binary = "" ->
     startswith (target spec) "docker-image://" = true \/
     startswith (target spec) "docker-container://" = true).
Proof.
  unfold get_evaluation_args. set (t := target spec). intros H.
  repeat match type of H with
         | context [if ?b then _ else _] => let E := fresh "E" in destruct b eqn:E
         end;
    try discriminate H.
  all: try (destruct (split_ssh_target t) as [[h p]|e]; [|discriminate H]).
  all: simpl in H; injection H as <-.
  all: do 2 eexists; (split; [reflexivity|]); intros Hb.
  all: try (left; reflexivity).
  all: try (right; reflexivity).
  all: match goal with
       | Hp : String.eqb ?x "" = false |- _ => rewrite Hb in Hp; discriminate Hp
       end.
Qed.

Section ReportFacts.

Variable path_exists : string -> bool.
Variable check_output : list string -> result string.


End ReportFacts.

Lemma fs_put_other_dir (d d' name c : string) (s : fs) :
  d <> d' ->
  dict_get String.eqb (fs_dirs (fs_put d name c s)) d' = dict_get String.eqb (fs_dirs s) d'.
Proof.
  intros Hne. unfold fs_put. simpl.
  induction (fs_dirs s) as [|[k f] r IH]; simpl; [reflexivity|].
  destruct (String.eqb k d) eqn:E; simpl.
  - apply String.eqb_eq in E. subst.
    rewrite (eqk_false String.eqb string_eqb_spec d d' Hne). exact IH.
  - destruct (String.eqb k d'); [reflexivity | exact IH].
Qed.

Lemma fs_put_file_content_other (d name name' c : string) (s : fs) :
  name <> name' -> file_content d name' (fs_put d name c s) = file_content d name' s.
Proof.
  intros Hne. unfold file_content, fs_put. simpl.
  induction (fs_dirs s) as [|[k f] r IH]; simpl; [reflexivity|].
  destruct (String.eqb k d) eqn:E; simpl; rewrite E; [|exact IH].
  apply (dict_get_set_other String.eqb string_eqb_spec). exact Hne.
Qed.

Lemma mkdtemp_loop_raise_dirs (n : nat) (dir : string) (s s1 : fs) (e : exn) :
  mkdtemp_loop n dir s = (Raise e, s1) -> fs_dirs s1 = fs_dirs s.
Proof.
  revert s. induction n as [|n IH]; intros s H; simpl in H.
  - now injection H as _ <-.
  - destruct (dir_exists _ (mkFS (fs_dirs s) (S (fs_seed s)))).
    + apply IH in H. exact H.
    + discriminate.
Qed.

Lemma mkdtemp_raise_dirs (dir : string) (s s1 : fs) (e : exn) :
  mkdtemp dir s = (Raise e, s1) -> fs_dirs s1 = fs_dirs s.
Proof.
  unfold mkdtemp. destruct (dir_exists dir s); [apply mkdtemp_loop_raise_dirs|].
  now intros H; injection H as _ <-.
Qed.

Section EvaluateMore.

Variable spawn : list string -> string -> call_outcome.

(** How [evaluate] ends once [mkdtemp] has made [d]: only files of [d]
    are written. *)
Lemma evaluate_only_writes_run_dir (spec : EvaluationSpec) (config : Config) (s s1 : fs)
    (d : string) (r : result string) (s' : fs) :
  is_valid spec = true ->
  mkdtemp (work_in_progress_dir config) s = (Ok d, s1) ->
  evaluate spawn spec config s = (r, s') ->
  forall d', d <> d' ->
  dict_get String.eqb (fs_dirs s') d' = dict_get String.eqb (fs_dirs s1) d'.
Proof.
  intros Hv Hmk H d' Hne.
  rewrite (evaluate_after_mkdtemp spawn spec config s s1 d Hv Hmk) in H. cbv zeta in H.
  destruct (get_evaluation_args spec config) as [args|e].
  - unfold call_redirected in H. destruct (spawn args d) as [code out err|]; simpl in H;
      injection H as _ <-; rewrite ?fs_put_other_dir by exact Hne; reflexivity.
  - injection H as _ <-. rewrite !fs_put_other_dir by exact Hne. reflexivity.
Qed.

(** Whatever its outcome, [evaluate] leaves every directory that existed
    before it ran, with its files and their contents, as it was. *)
Theorem evaluate_keeps_existing_dirs (spec : EvaluationSpec) (config : Config) (s : fs)
    (r : result string) (s' : fs) :
  evaluate spawn spec config s = (r, s') ->
  forall d', dir_exists d' s = true ->
  dict_get String.eqb (fs_dirs s') d' = dict_get String.eqb (fs_dirs s) d'.
Proof.
  intros H d' Hd'.
  destruct (is_valid spec) eqn:Hv.
  2:{ unfold evaluate in H. rewrite Hv in H. injection H as _ <-. reflexivity. }
  destruct (mkdtemp (work_in_progress_dir config) s) as [[d|e] s1] eqn:Hmk.
  - destruct (mkdtemp_fresh _ _ _ _ Hmk) as [Hfresh Hdirs].
    assert (Hne : d <> d') by (intros ->; congruence).
    rewrite (evaluate_only_writes_run_dir spec config s s1 d r s' Hv Hmk H d' Hne).
    rewrite Hdirs. simpl.
    now rewrite (eqk_false String.eqb string_eqb_spec d d' Hne).
  - unfold evaluate in H. rewrite Hv in H. cbn [negb] in H.
    unfold st_bind at 1 in H. rewrite Hmk in H. injection H as _ <-.
    now rewrite (mkdtemp_raise_dirs _ _ _ _ Hmk).
Qed.

(** Two evaluations run one after the other return different run
    directories, and the first one did not exist before. *)
Theorem evaluate_run_directories_distinct (spec1 spec2 : EvaluationSpec)
    (config1 config2 : Config) (s s1 s2 : fs) (d1 d2 : string) :
  evaluate spawn spec1 config1 s = (Ok d1, s1) ->
  evaluate spawn spec2 config2 s1 = (Ok d2, s2) ->
  dir_exists d1 s = false /\ d1 <> d2.
Proof.
  intros H1 H2.
  destruct (evaluate_ok_run_dir spawn _ _ _ _ _ H1) as (F1 & E1 & _).
  destruct (evaluate_ok_run_dir spawn _ _ _ _ _ H2) as (F2 & _ & _).
  split; [exact F1|]. intros ->. congruence.
Qed.

(** When the process runs, the [stdout] and [stderr] files of the run
    directory hold what it wrote; when it cannot be started they are empty. *)
Theorem evaluate_captures_output (spec : EvaluationSpec) (config : Config) (s s1 : fs)
    (d : string) (args : list string) :
  is_valid spec = true ->
  mkdtemp (work_in_progress_dir config) s = (Ok d, s1) ->
  get_evaluation_args spec config = Ok args ->
  exists s', evaluate spawn spec config s = (Ok d, s') /\
    match spawn args d with
    | Exited _ out err =>
        file_content d "stdout" s' = Some out /\ file_content d "stderr" s' = Some err
    | LaunchFailed =>
        file_content d "stdout" s' = Some "" /\ file_content d "stderr" s' = Some ""
    end.
Proof.
  intros Hv Hmk Ha.
  destruct (mkdtemp_fresh _ _ _ _ Hmk) as [_ Hdirs].
  assert (E1 : dir_exists d s1 = true)
    by (unfold dir_exists; rewrite Hdirs; simpl; now rewrite String.eqb_refl).
  rewrite (evaluate_after_mkdtemp spawn spec config s s1 d Hv Hmk). cbv zeta. rewrite Ha.
  unfold call_redirected. destruct (spawn args d) as [code out err|]; simpl;
    eexists; (split; [reflexivity|]);
    rewrite !(fs_put_file_content_other d "exit_code") by discriminate.
  - split.
    + rewrite (fs_put_file_content_other d "stderr") by discriminate.
      apply fs_put_file_content. now rewrite !fs_put_dir_exists.
    + apply fs_put_file_content. now rewrite !fs_put_dir_exists.
  - split.
    + rewrite (fs_put_file_content_other d "stderr") by discriminate.
      apply fs_put_file_content. exact E1.
    + apply fs_put_file_content. now rewrite fs_put_dir_exists.
Qed.

End EvaluateMore.

Lemma find_app_last {A : Type} (f : A -> bool) (l : list A) (x : A) :
  find f (l ++ [x]) = match find f l with Some y => Some y | None => if f x then Some x else None end.
Proof. induction l as [|a l IH]; simpl; [reflexivity|]. destruct (f a); [reflexivity | exact IH]. Qed.

(** The profile loop [dest[id_] = title]: the title of an id is the one of
    the last profile found with that id; other ids keep their entries. *)
Theorem add_profiles_lookup (ps : list (option string * string)) (d : profile_map)
    (k : option string) :
  dict_get key_eqb (add_profiles ps d) k =
  match find (fun p => key_eqb (fst p) k) (List.rev ps) with
  | Some p => Some (snd p)
  | None => dict_get key_eqb d k
  end.
Proof.
  unfold add_profiles. revert d. induction ps as [|p ps IH]; intros d; [reflexivity|].
  simpl fold_left. rewrite IH. simpl List.rev. rewrite find_app_last.
  destruct (find _ (List.rev ps)); [reflexivity|].
  destruct (key_eqb (fst p) k) eqn:E.
  - apply key_eqb_spec in E. rewrite <- E. apply (dict_get_set_same key_eqb key_eqb_spec).
  - apply (dict_get_set_other key_eqb key_eqb_spec). intros Heq. rewrite Heq in E.
    rewrite (proj2 (key_eqb_spec k k) eq_refl) in E. discriminate.
Qed.

(** ** Witnesses of the further properties *)

Lemma schedule_repeat_after_other_keywords_witness :
  schedule_repeat_after "@hourly" = Raise ValueError.
Proof. apply (schedule_repeat_after_other_keywords "hourly"); discriminate. Defined.

Lemma split_ssh_target_roundtrip_witness :
  split_ssh_target "ssh://scanner.example.com:2222" = Ok ("scanner.example.com", 2222) /\
  split_ssh_target "ssh+sudo://scanner.example.com:-1" = Ok ("scanner.example.com", -1).
Proof.
  split.
  - exact (proj1 (split_ssh_target_roundtrip "scanner.example.com" 2222 eq_refl)).
  - exact (proj2 (split_ssh_target_roundtrip "scanner.example.com" (-1) eq_refl)).
Defined.

Lemma split_ssh_target_host_no_colon_witness :
  split_ssh_target "ssh+sudo://db01:2022" = Ok ("db01", 2022) /\
  str_contains ":" "db01" = false.
Proof.
  split; [reflexivity|].
  exact (split_ssh_target_host_no_colon "ssh+sudo://db01:2022" "db01" 2022 eq_refl).
Defined.

Lemma get_evaluation_args_empty_binary_witness :
  exists binary rest,
    ["/usr/bin/oscap"; "xccdf"; "eval"] = binary :: rest /\
    (binary = "" -> startswith "localhost" "docker-image://" = true \/
                    startswith "localhost" "docker-container://" = true).
Proof.
  exact (get_evaluation_args_empty_binary (spec_for "localhost") cfg_ssh_only
           ["/usr/bin/oscap"; "xccdf"; "eval"] eq_refl).
Defined.


Lemma evaluate_keeps_existing_dirs_witness :
  dict_get String.eqb
    (fs_dirs (snd (evaluate spawn_noncompliant (spec_for "localhost") cfg_ssh_only
                     fs_with_result)))
    "/var/lib/oscapd/results/1"
  = Some [("exit_code", "0"); ("stdout", "Rule ... pass")].
Proof.
  rewrite (evaluate_keeps_existing_dirs spawn_noncompliant (spec_for "localhost")
             cfg_ssh_only fs_with_result _ _ (surjective_pairing _)
             "/var/lib/oscapd/results/1" eq_refl).
  reflexivity.
Defined.

Lemma evaluate_run_directories_distinct_witness :
  dir_exists "/var/lib/oscapd/wip/tmp0" fs0 = false /\
  "/var/lib/oscapd/wip/tmp0" <> "/var/lib/oscapd/wip/tmp1".
Proof.
  exact (evaluate_run_directories_distinct spawn_noncompliant
           (spec_for "localhost") (spec_for "ssh://db01") cfg_ssh_only cfg_ssh_only
           fs0
           (snd (evaluate spawn_noncompliant (spec_for "localhost") cfg_ssh_only fs0))
           (snd (evaluate spawn_noncompliant (spec_for "ssh://db01") cfg_ssh_only
                   (snd (evaluate spawn_noncompliant (spec_for "localhost") cfg_ssh_only fs0))))
           "/var/lib/oscapd/wip/tmp0" "/var/lib/oscapd/wip/tmp1"
           ltac:(vm_compute; reflexivity) ltac:(vm_compute; reflexivity)).
Defined.

Lemma evaluate_captures_output_witness :
  exists s', evaluate spawn_noncompliant (spec_for "localhost") cfg_ssh_only fs0
             = (Ok "/var/lib/oscapd/wip/tmp0", s') /\
    file_content "/var/lib/oscapd/wip/tmp0" "stdout" s' = Some "Rule ... fail" /\
    file_content "/var/lib/oscapd/wip/tmp0" "stderr" s' = Some "".
Proof.
  exact (evaluate_captures_output spawn_noncompliant (spec_for "localhost") cfg_ssh_only
           fs0 fs0_after_mkdtemp "/var/lib/oscapd/wip/tmp0" ["/usr/bin/oscap"; "xccdf"; "eval"]
           eq_refl ltac:(vm_compute; reflexivity) eq_refl).
Defined.
